(** * DCAFlights: the data loader and the shared filter pipeline

    A shallow embedding of [src/data.py] ([get_data]),
    [src/components/filter_component.py] ([filter_data], [display_count]) and
    of the [update] callbacks of the components under [src/components/].

    pandas values are modelled by what the code observes of them:
    a data frame is its list of column names and its rows, a cell is a
    dynamically typed Python scalar or the missing marker, a keyword bag
    ([**filters]) is a finite map from names to Python values.  Exceptions are
    explicit results, the logger is a list of emitted records. *)

From Stdlib Require Import ZArith QArith String Ascii List Bool Lia.
From Stdlib Require Import DecimalString.
From stdpp Require Import base tactics option list strings gmap.

Local Open Scope Z_scope.
Local Open Scope string_scope.
Local Open Scope list_scope.

(** ** Python values, exceptions and results *)

(** The exception classes the modelled code can raise or catch.  pandas'
    parser errors, [OutOfBoundsDatetime], [UnicodeDecodeError] and pyarrow's
    [ArrowInvalid] are subclasses of [ValueError] and are folded into it, as
    an [except ValueError] clause does.  [OtherError] is an exception of any
    other class, by its name ([gzip.BadGzipFile], [zipfile.BadZipFile], ...):
    [except Exception] catches it, [except (ValueError, TypeError)] does
    not. *)
Inductive exn : Type :=
  | KeyError (key : string)
  | TypeError
  | ValueError
  | FileNotFoundError
  | OtherError (cls : string).

Inductive result (A : Type) : Type :=
  | Ok (a : A)
  | Raise (e : exn).
Arguments Ok {A} a.
Arguments Raise {A} e.

Definition is_Ok {A} (r : result A) : Prop := exists a, r = Ok a.

Definition result_bind {A B} (r : result A) (f : A -> result B) : result B :=
  match r with
  | Ok a => f a
  | Raise e => Raise e
  end.

Fixpoint result_mapM {A B} (f : A -> result B) (l : list A) : result (list B) :=
  match l with
  | [] => Ok []
  | x :: l' =>
      result_bind (f x) (fun y =>
      result_bind (result_mapM f l') (fun ys => Ok (y :: ys)))
  end.

(** A Python [float]: a finite number, an infinity or NaN.  Finite values are
    exact rationals; rounding of binary64 is not modelled. *)
Inductive pyfloat : Type :=
  | FNum (q : Q)
  | FInf (negative : bool)
  | FNaN.

(** [a <= b] on floats; every comparison with NaN is false. *)
Definition float_le (a b : pyfloat) : bool :=
  match a, b with
  | FNaN, _ | _, FNaN => false
  | FInf true, _ => true
  | _, FInf false => true
  | FInf false, _ => false
  | _, FInf true => false
  | FNum p, FNum q => Qle_bool p q
  end.

(** The values a keyword argument can hold (what Dash hands to a callback). *)
#[warnings="-register-all"]
Inductive pyval : Type :=
  | PNone
  | PInt (z : Z)
  | PFloat (f : pyfloat)
  | PStr (s : string)
  | PList (l : list pyval).

(** A cell of a data frame.  [NA] is the missing marker of the column
    ([pd.NA], [NaN] or [NaT]); [CDate] is a timestamp counted in days. *)
Inductive cell : Type :=
  | NA
  | CInt (z : Z)
  | CStr (s : string)
  | CBool (b : bool)
  | CDate (t : Z).

Definition is_na (c : cell) : bool :=
  match c with NA => true | _ => false end.

(** A data frame: column labels and rows, a row holding one cell per column
    in the order of the labels.  The index labels are not modelled. *)
Record DataFrame : Type := mkDataFrame {
  columns : list string;
  rows : list (list cell)
}.

Fixpoint column_index (col : string) (cols : list string) : option nat :=
  match cols with
  | [] => None
  | c :: cols' =>
      if String.eqb c col then Some O
      else option_map S (column_index col cols')
  end.

Definition cell_at (i : nat) (row : list cell) : cell := nth i row NA.

(** [df[col]]: the column as a series, [KeyError] when there is none. *)
Definition getitem (df : DataFrame) (col : string) : result (list cell) :=
  match column_index col (columns df) with
  | Some i => Ok (map (cell_at i) (rows df))
  | None => Raise (KeyError col)
  end.

(** [col in df.columns] *)
Definition has_column (df : DataFrame) (col : string) : bool :=
  match column_index col (columns df) with Some _ => true | None => false end.

Fixpoint select_rows {A} (l : list A) (mask : list bool) : list A :=
  match l, mask with
  | x :: l', b :: mask' =>
      if b then x :: select_rows l' mask' else select_rows l' mask'
  | _, _ => []
  end.

(** [df[mask]]: the rows whose mask entry is true, in their order. *)
Definition getitem_mask (df : DataFrame) (mask : list bool) : DataFrame :=
  {| columns := columns df; rows := select_rows (rows df) mask |}.

(** ** Python built-ins used by the filter *)

(** [needle in s] for two strings: the substring test. *)
Fixpoint str_contains (needle s : string) : bool :=
  String.prefix needle s ||
  match s with
  | EmptyString => false
  | String _ s' => str_contains needle s'
  end.

(** [len(v)] *)
Definition py_len (v : pyval) : result nat :=
  match v with
  | PStr s => Ok (String.length s)
  | PList l => Ok (length l)
  | _ => Raise TypeError
  end.

Definition is_str (s : string) (v : pyval) : bool :=
  match v with PStr s' => String.eqb s s' | _ => false end.

(** [s in v] for a string [s]: membership by [==] in a list, the substring
    test in a string. *)
Definition py_in (s : string) (v : pyval) : result bool :=
  match v with
  | PList l => Ok (existsb (is_str s) l)
  | PStr s' => Ok (str_contains s s')
  | _ => Raise TypeError
  end.

(** Python's [==] between a cell and a selected value: an integer never
    equals a string, nothing equals a missing cell. *)
Definition cell_eq (c : cell) (v : pyval) : bool :=
  match c, v with
  | CInt z, PInt z' => Z.eqb z z'
  | CInt z, PFloat (FNum q) => Qeq_bool (inject_Z z) q
  | CStr s, PStr s' => String.eqb s s'
  | _, _ => false
  end.

(** [series.isin(values)]; pandas refuses a value that is not list-like. *)
Definition isin (s : list cell) (values : pyval) : result (list bool) :=
  match values with
  | PList l => Ok (map (fun c => existsb (cell_eq c) l) s)
  | _ => Raise TypeError
  end.

(** [cell >= b] and [cell <= b] against a float, element of
    [df["distance"] >= b]: a missing cell gives a missing mask entry, which
    boolean indexing reads as false; text and timestamps do not compare with
    a number. *)
Definition cell_cmp_float (ge : bool) (b : pyfloat) (c : cell) : result bool :=
  let cmp x := if ge then float_le b x else float_le x b in
  match c with
  | NA => Ok false
  | CInt z => Ok (cmp (FNum (inject_Z z)))
  | CBool t => Ok (cmp (FNum (inject_Z (if t then 1 else 0))))
  | CStr _ | CDate _ => Raise TypeError
  end.

(** [cell >= b] and [cell <= b] against a timestamp ([None] is [NaT]). *)
Definition cell_cmp_date (ge : bool) (b : option Z) (c : cell) : result bool :=
  match c with
  | NA => Ok false
  | CDate t =>
      Ok (match b with
          | Some t0 => if ge then Z.leb t0 t else Z.leb t t0
          | None => false
          end)
  | CInt _ | CStr _ | CBool _ => Raise TypeError
  end.

(** The parsers of the Python runtime and of pandas' reader, kept abstract:
    the theorems hold for every parser. *)
Class PyRuntime : Type := {
  (** [float(s)] on a string, [None] when it raises [ValueError] *)
  float_of_str : string -> option pyfloat;
  (** [pd.to_datetime(v)] on a scalar *)
  pd_to_datetime : pyval -> result (option Z);
  (** [datetime.fromisoformat(v)] *)
  fromisoformat : pyval -> result Z;
  (** one element of [pd.to_datetime(series, format='%Y-%m-%d')] *)
  strptime_ymd : string -> option Z;
  (** [read_csv] on a field of an [Int64] column that is not a plain decimal
      integer of 64 bits: ["1.0"] and ["+1"] are read as 1, ["1.5"] raises
      [TypeError], ["x"] raises [ValueError] *)
  Int64_of_str : string -> result Z;
  (** [read_csv] on records one of which has more fields than the header:
      the python engine takes the leading fields of every record off as an
      implicit index, or raises a parser error; the records that are left *)
  irregular_records :
    list string -> list (list string) -> result (list (list string));
  (** the exception plain content raises when [read_csv] opens it under the
      compression it infers from the path *)
  decompression_error : string -> exn
}.

(** [float(v)] *)
Definition py_float `{PyRuntime} (v : pyval) : result pyfloat :=
  match v with
  | PInt z => Ok (FNum (inject_Z z))
  | PFloat f => Ok f
  | PStr s =>
      match float_of_str s with
      | Some f => Ok f
      | None => Raise ValueError
      end
  | PNone | PList _ => Raise TypeError
  end.

(** ** The effects of the code: exceptions, the logger, frame objects *)

Inductive level : Type := DEBUG | WARNING.

Record log_record : Type := mkLog { lvl : level; msg : string }.

(** What the code needs of its control flow. *)
Class PyMonad (m : Type -> Type) : Type := {
  ret : forall {A}, A -> m A;
  bind : forall {A B}, m A -> (A -> m B) -> m B;
  raise : forall {A}, exn -> m A;
  (** [try: body except <classes>: handler] *)
  try_except : forall {A}, m A -> (exn -> bool) -> (exn -> m A) -> m A;
  (** [logger.debug(msg, ...)], [logger.warning(msg, ...)] *)
  logger : level -> string -> m unit
}.

Declare Scope py_scope.
Delimit Scope py_scope with py.
Notation "'let*' x ':=' e 'in' k" := (bind e (fun x => k))
  (at level 10, x name, e at level 100, k at level 200) : py_scope.
Notation "e ';;' k" := (bind e (fun _ => k))
  (at level 100, k at level 200, right associativity) : py_scope.
Local Open Scope py_scope.

Definition lift {m} `{PyMonad m} {A} (r : result A) : m A :=
  match r with
  | Ok a => ret a
  | Raise e => raise e
  end.

(** What the code needs of pandas' frame objects. *)
Class Frames (m : Type -> Type) (frame : Type) : Type := {
  df_copy : frame -> m frame;
  df_has_column : frame -> string -> m bool;
  df_getitem : frame -> string -> m (list cell);
  df_getitem_mask : frame -> list bool -> m frame
}.

(** ** src/components/filter_component.py *)

Module filter_component.
Section filter_data.
Context `{PyRuntime} {m : Type -> Type} {frame : Type}.
Context `{PyMonad m} `{!Frames m frame}.

(** [filters[key]] *)
Definition kw (filters : gmap string pyval) (key : string) : m pyval :=
  match filters !! key with
  | Some v => ret v
  | None => raise (KeyError key)
  end.

(** One multi-select dimension (lines 244-269):
[[
  if len(filters[key]) > 0 and "all" not in filters[key]:
      df = df[df[col].isin(filters[key])]
]] *)
Definition multi_select (key col : string) (filters : gmap string pyval)
    (df : frame) : m frame :=
  let* v := kw filters key in
  let* n := lift (py_len v) in
  let* restricted :=
    (if (0 <? n)%nat
     then let* a := lift (py_in "all" v) in ret (negb a)
     else ret false) in
  if restricted : bool then
    let* s := df_getitem df col in
    let* mask := lift (isin s v) in
    df_getitem_mask df mask
  else ret df.

(** One distance bound (line 273 or 274):
[[
  df = df[df["distance"] >= float(filters[key])]
]] *)
Definition distance_bound (ge : bool) (key : string)
    (filters : gmap string pyval) (df : frame) : m frame :=
  let* s := df_getitem df "distance" in
  let* v := kw filters key in
  let* b := lift (py_float v) in
  let* mask := lift (result_mapM (cell_cmp_float ge b) s) in
  df_getitem_mask df mask.

Definition value_or_type_error (e : exn) : bool :=
  match e with
  | ValueError | TypeError => true
  | _ => false
  end.

(** [df = df[df["date"] >= bound]] (or [<=]) *)
Definition date_compare (ge : bool) (bound : option Z) (df : frame)
    : m frame :=
  let* s := df_getitem df "date" in
  let* mask := lift (result_mapM (cell_cmp_date ge bound) s) in
  df_getitem_mask df mask.

(** One date bound (lines 277-286 or 288-297):
[[
  if filters[key] is not None:
      try:
          bound = pd.to_datetime(filters[key])
          df = df[df["date"] >= bound]
      except (ValueError, TypeError):
          try:
              bound = datetime.fromisoformat(filters[key])
              df = df[df["date"] >= bound]
          except (ValueError, TypeError) as e:
              logger.warning(...)
]] *)
Definition date_bound (ge : bool) (key warning : string)
    (filters : gmap string pyval) (df : frame) : m frame :=
  let* v := kw filters key in
  match v with
  | PNone => ret df
  | _ =>
      try_except
        (let* bound := lift (pd_to_datetime v) in
         date_compare ge bound df)
        value_or_type_error
        (fun _ =>
           try_except
             (let* bound := lift (fromisoformat v) in
              date_compare ge (Some bound) df)
             value_or_type_error
             (fun _ => logger WARNING warning ;; ret df))
  end.

Definition filter_data (df : frame) (filters : gmap string pyval)
    : m frame :=
  logger DEBUG "Starting data filtering. Original shape: %s" ;;
  logger DEBUG "Applied filters: %s" ;;
  let* df := df_copy df in
  let* df := multi_select "year" "year" filters df in
  let* df := multi_select "airline" "airline_name" filters df in
  let* df := multi_select "destination_airport" "dest" filters df in
  let* df := multi_select "month" "month_name" filters df in
  let* df := multi_select "day_of_week" "day_of_week" filters df in
  let* df := multi_select "time_period" "time_period" filters df in
  let* df := multi_select "delay_category" "delay_category" filters df in
  let* has_distance := df_has_column df "distance" in
  let* df :=
    (if has_distance : bool then
       let* df := distance_bound true "flight_distance_min" filters df in
       distance_bound false "flight_distance_max" filters df
     else ret df) in
  let* df :=
    date_bound true "date_start"
      "Could not parse start_date filter: %s. Error: %s" filters df in
  let* df :=
    date_bound false "date_end"
      "Could not parse end_date filter: %s. Error: %s" filters df in
  logger DEBUG "Filtering complete. Final shape: %s" ;;
  logger DEBUG "Filtered data sample:\n%s" ;;
  ret df.
End filter_data.
End filter_component.

(** ** Value semantics: a frame is its contents *)

(** A computation returns a result or raises, and emits log records. *)
Definition M (A : Type) : Type := (result A * list log_record)%type.

Definition M_ret {A} (a : A) : M A := (Ok a, []).

Definition M_bind {A B} (c : M A) (f : A -> M B) : M B :=
  match c with
  | (Ok a, l) => let (r, l') := f a in (r, l ++ l')
  | (Raise e, l) => (Raise e, l)
  end.

Definition M_raise {A} (e : exn) : M A := (Raise e, []).

Definition M_try {A} (body : M A) (catches : exn -> bool)
    (handler : exn -> M A) : M A :=
  match body with
  | (Raise e, l) =>
      if catches e then let (r, l') := handler e in (r, l ++ l')
      else (Raise e, l)
  | _ => body
  end.

Definition M_log (lv : level) (s : string) : M unit :=
  (Ok tt, [mkLog lv s]).

#[global] Instance M_monad : PyMonad M := {
  ret := @M_ret;
  bind := @M_bind;
  raise := @M_raise;
  try_except := @M_try;
  logger := M_log
}.

#[global] Instance value_frames : Frames M DataFrame := {
  df_copy df := M_ret df;
  df_has_column df col := M_ret (has_column df col);
  df_getitem df col := lift (getitem df col);
  df_getitem_mask df mask := M_ret (getitem_mask df mask)
}.

(** [filter_data(df, **filters)] on frame values: the returned frame or the
    exception, and the records logged. *)
Definition filter_data `{PyRuntime} (df : DataFrame)
    (filters : gmap string pyval) : M DataFrame :=
  filter_component.filter_data df filters.

(** ** Reference semantics: frames are objects in a store *)

Module Store.
(** The store maps an object identity to the frame it holds; an object is
    allocated at the end. *)
Definition store : Type := list DataFrame.

Definition SM (A : Type) : Type :=
  store -> (result A * list log_record * store)%type.

Definition SM_ret {A} (a : A) : SM A := fun h => (Ok a, [], h).

Definition SM_bind {A B} (c : SM A) (f : A -> SM B) : SM B :=
  fun h =>
    match c h with
    | (Ok a, l, h') =>
        match f a h' with (r, l', h'') => (r, l ++ l', h'') end
    | (Raise e, l, h') => (Raise e, l, h')
    end.

Definition SM_raise {A} (e : exn) : SM A := fun h => (Raise e, [], h).

Definition SM_try {A} (body : SM A) (catches : exn -> bool)
    (handler : exn -> SM A) : SM A :=
  fun h =>
    match body h with
    | (Raise e, l, h') =>
        if catches e
        then match handler e h' with (r, l', h'') => (r, l ++ l', h'') end
        else (Raise e, l, h')
    | out => out
    end.

Definition SM_log (lv : level) (s : string) : SM unit :=
  fun h => (Ok tt, [mkLog lv s], h).

#[global] Instance SM_monad : PyMonad SM := {
  ret := @SM_ret;
  bind := @SM_bind;
  raise := @SM_raise;
  try_except := @SM_try;
  logger := SM_log
}.

(** Reading the object behind a reference. *)
Definition deref {A} (r : nat) (k : DataFrame -> SM A) : SM A :=
  fun h =>
    match nth_error h r with
    | Some df => k df h
    | None => (Raise (KeyError "dangling reference"), [], h)
    end.

(** A new object holding [df]; its identity is fresh. *)
Definition alloc (df : DataFrame) : SM nat :=
  fun h => (Ok (length h), [], h ++ [df]).

#[global] Instance store_frames : Frames SM nat := {
  df_copy r := deref r alloc;
  df_has_column r col := deref r (fun df => SM_ret (has_column df col));
  df_getitem r col := deref r (fun df => lift (getitem df col));
  df_getitem_mask r mask := deref r (fun df => alloc (getitem_mask df mask))
}.

(** [filter_data(df, **filters)] on a reference to the caller's frame. *)
Definition filter_data `{PyRuntime} (df : nat)
    (filters : gmap string pyval) : SM nat :=
  filter_component.filter_data df filters.
End Store.

(** ** src/data.py *)

Module data.
(** A file as it is stored, not compressed: delimited text already split
    into a header and records of text fields (the tokenizer and the
    delimiter sniffing of [sep=None] are pandas'), or a columnar file
    holding a typed frame. *)
Inductive file : Type :=
  | TextFile (header : list string) (records : list (list string))
  | ParquetFile (df : DataFrame).

Inductive dtype : Type := dt_str | dt_Int64.

Definition type_mapping : list (string * dtype) :=
  [ ("month_name", dt_str); ("day_of_week", dt_str); ("carrier", dt_str);
    ("airline_name", dt_str); ("flight", dt_str); ("tailnum", dt_str);
    ("origin", dt_str); ("dest", dt_str); ("delay_category", dt_str);
    ("time_period", dt_str);
    ("year", dt_Int64); ("month", dt_Int64); ("day", dt_Int64);
    ("day_of_week_num", dt_Int64); ("sched_dep_time", dt_Int64);
    ("dep_time", dt_Int64); ("dep_delay", dt_Int64);
    ("dep_delay_flag", dt_Int64); ("sched_arr_time", dt_Int64);
    ("arr_time", dt_Int64); ("arr_delay", dt_Int64);
    ("arr_delay_flag", dt_Int64); ("on_time", dt_Int64);
    ("air_time", dt_Int64); ("distance", dt_Int64);
    ("date", dt_str) ].

Fixpoint lookup_dtype (col : string) (tm : list (string * dtype))
    : option dtype :=
  match tm with
  | [] => None
  | (c, d) :: tm' => if String.eqb c col then Some d else lookup_dtype col tm'
  end.

(** The texts [read_csv] reads as missing ([na_values] is empty, the
    defaults stay). *)
Definition default_na : list string :=
  [ ""; "#N/A"; "#N/A N/A"; "#NA"; "-1.#IND"; "-1.#QNAN"; "-NaN"; "-nan";
    "1.#IND"; "1.#QNAN"; "<NA>"; "N/A"; "NA"; "NULL"; "NaN"; "None"; "n/a";
    "nan"; "null" ].

Definition is_na_text (s : string) : bool := existsb (String.eqb s) default_na.

(** A decimal integer literal. *)
Definition int_of_text (s : string) : option Z :=
  option_map Z.of_int (NilEmpty.int_of_string s).

(** The integers an [Int64] cell holds. *)
Definition in_int64 (z : Z) : bool :=
  Z.leb (- 2 ^ 63) z && Z.ltb z (2 ^ 63).

Definition field (i : nat) (record : list string) : string := nth i record "".

(** The dtype of column [i]: the declared one, or for an undeclared column
    the inferred one (integers when every present field is one). *)
Definition column_dtype (col : string) (i : nat)
    (records : list (list string)) : dtype :=
  match lookup_dtype col type_mapping with
  | Some d => d
  | None =>
      if forallb (fun r => is_na_text (field i r)
                           || bool_decide (is_Some (int_of_text (field i r))))
           records
      then dt_Int64 else dt_str
  end.

(** One field under the dtype of its column.  A plain integer literal is
    read as it stands; any other text of an [Int64] column is left to the
    runtime. *)
Definition convert `{PyRuntime} (d : dtype) (s : string) : result cell :=
  if is_na_text s then Ok NA
  else match d with
       | dt_str => Ok (CStr s)
       | dt_Int64 =>
           match int_of_text s with
           | Some z =>
               if in_int64 z then Ok (CInt z)
               else result_bind (Int64_of_str s) (fun z => Ok (CInt z))
           | None => result_bind (Int64_of_str s) (fun z => Ok (CInt z))
           end
       end.

Fixpoint convert_record `{PyRuntime} (dts : list dtype) (i : nat)
    (record : list string) : result (list cell) :=
  match dts with
  | [] => Ok []
  | d :: dts' =>
      result_bind (convert d (field i record)) (fun c =>
      result_bind (convert_record dts' (S i) record) (fun cs => Ok (c :: cs)))
  end.

(** [path.lower()], on the letters A to Z. *)
Definition lower_ascii (a : ascii) : ascii :=
  let n := nat_of_ascii a in
  if (65 <=? n)%nat && (n <=? 90)%nat then ascii_of_nat (n + 32) else a.

Fixpoint lower (s : string) : string :=
  match s with
  | EmptyString => EmptyString
  | String a s' => String (lower_ascii a) (lower s')
  end.

(** [path.endswith(suffix)] *)
Definition endswith (path suffix : string) : bool :=
  let n := String.length path in
  let k := String.length suffix in
  (k <=? n)%nat && String.eqb (String.substring (n - k) k path) suffix.

(** The extensions from which [compression='infer'], the default of
    [read_csv], infers a compression. *)
Definition compression_extensions : list string :=
  [ ".tar"; ".tar.gz"; ".tar.bz2"; ".tar.xz"; ".gz"; ".bz2"; ".zip"; ".xz";
    ".zst" ].

Definition infers_compression (path : string) : bool :=
  existsb (endswith (lower path)) compression_extensions.

(** [pd.read_csv(path, dtype=type_mapping, na_values={}, sep=None)].  The
    files of the model are not compressed: under a path from which a
    compression is inferred, opening them fails. *)
Definition read_csv `{PyRuntime} (fs : gmap string file) (path : string)
    : result DataFrame :=
  match fs !! path with
  | None => Raise FileNotFoundError
  | Some f =>
      if infers_compression path then Raise (decompression_error path)
      else
        match f with
        | ParquetFile _ => Raise ValueError
        | TextFile header records =>
            result_bind
              (if forallb (fun r => (length r <=? length header)%nat)
                    records
               then Ok records
               else irregular_records header records) (fun records =>
            let dts :=
              imap (fun i col => column_dtype col i records) header in
            result_bind (result_mapM (convert_record dts 0) records)
              (fun rs => Ok {| columns := header; rows := rs |}))
        end
  end.

(** [pd.read_parquet(path, engine='pyarrow')] *)
Definition read_parquet (fs : gmap string file) (path : string)
    : result DataFrame :=
  match fs !! path with
  | None => Raise FileNotFoundError
  | Some (ParquetFile df) => Ok df
  | Some (TextFile _ _) => Raise ValueError
  end.

Definition pad (n : nat) (row : list cell) : list cell :=
  firstn n (row ++ repeat NA n).

Fixpoint zip_with {A B C} (f : A -> B -> C) (l : list A) (l' : list B)
    : list C :=
  match l, l' with
  | x :: l, y :: l' => f x y :: zip_with f l l'
  | _, _ => []
  end.

(** [df[col] = series]: replaces the column, or appends a new one. *)
Definition setitem (df : DataFrame) (col : string) (s : list cell)
    : DataFrame :=
  let n := length (columns df) in
  match column_index col (columns df) with
  | Some i =>
      {| columns := columns df;
         rows := zip_with (fun r c => <[i:=c]> (pad n r)) (rows df) s |}
  | None =>
      {| columns := columns df ++ [col];
         rows := zip_with (fun r c => pad n r ++ [c]) (rows df) s |}
  end.

(** One element of [pd.to_datetime(df['date'], format='%Y-%m-%d')]. *)
Definition to_datetime_cell `{PyRuntime} (c : cell) : result cell :=
  match c with
  | NA => Ok NA
  | CDate t => Ok (CDate t)
  | CStr s =>
      match strptime_ymd s with
      | Some t => Ok (CDate t)
      | None => Raise ValueError
      end
  | CInt _ => Raise ValueError
  | CBool _ => Raise TypeError
  end.

(** One element of [series == 1]; a missing flag stays missing. *)
Definition eq_one (c : cell) : cell :=
  match c with
  | NA => NA
  | CInt z => CBool (Z.eqb z 1)
  | CBool b => CBool b
  | CStr _ | CDate _ => CBool false
  end.

(** [df.dropna(how='all')] *)
Definition dropna_all (df : DataFrame) : DataFrame :=
  {| columns := columns df;
     rows := List.filter (fun r => existsb (fun c => negb (is_na c)) r)
               (rows df) |}.

(** [df[new] = df[flag] == 1] *)
Definition derive_bool (flag new : string) (df : DataFrame) : M DataFrame :=
  let* s := lift (getitem df flag) in
  ret (setitem df new (map eq_one s)).

Definition get_data `{PyRuntime} (fs : gmap string file)
    (data_path : string) : M DataFrame :=
  let* df :=
    (if endswith data_path ".parquet"
     then lift (read_parquet fs data_path)
     else lift (read_csv fs data_path)) in
  logger DEBUG "Data loaded. Shape: %s" ;;
  logger DEBUG "Sample data:\n%s" ;;
  let* date := lift (getitem df "date") in
  let* date := lift (result_mapM to_datetime_cell date) in
  let df := setitem df "date" date in
  let* df := derive_bool "dep_delay_flag" "dep_delay_flag_bool" df in
  let* df := derive_bool "arr_delay_flag" "arr_delay_flag_bool" df in
  let* df := derive_bool "on_time" "on_time_bool" df in
  logger DEBUG "Data after transformations:\n%s" ;;
  ret (dropna_all df).

(** [get_data()], with the default [data_path]. *)
Definition get_data_default `{PyRuntime} (fs : gmap string file)
    : M DataFrame :=
  get_data fs "data/data.csv".
End data.

(** ** The consumers under src/components/ *)

(** [len(df)] *)
Definition len (df : DataFrame) : nat := length (rows df).

(** A number as an aggregation returns it. *)
Inductive pynum : Type :=
  | NumInt (z : Z)
  | NumFloat (f : pyfloat)
  | NumNA.

(** A plotly figure, as far as the callbacks set it up themselves. *)
Record figure : Type := mkFigure {
  title : string;
  annotation : string;
  traces : list string
}.

(** What is left to the plotting and grid libraries: the part of each
    callback after its first emptiness test, and the text of an exception. *)
Class Rendering : Type := {
  chart_body : string -> gmap string pyval -> DataFrame -> M (figure * string);
  table_body : DataFrame -> M (list string * list (list cell) * string);
  exn_text : exn -> string
}.

(** The numeric reductions of a series skip missing cells. *)
Definition numeric (c : cell) : result (option Z) :=
  match c with
  | NA => Ok None
  | CInt z => Ok (Some z)
  | CBool b => Ok (Some (if b then 1 else 0))
  | CStr _ | CDate _ => Raise TypeError
  end.

Definition present (s : list cell) : result (list Z) :=
  result_bind (result_mapM numeric s) (fun l => Ok (omap id l)).

(** [series.sum()] *)
Definition series_sum (s : list cell) : result Z :=
  result_bind (present s) (fun l => Ok (fold_right Z.add 0 l)).

(** [series.mean()] *)
Definition series_mean (s : list cell) : result pynum :=
  result_bind (present s) (fun l =>
    match l with
    | [] => Ok NumNA
    | _ => Ok (NumFloat (FNum (Qred (inject_Z (fold_right Z.add 0 l)
                                       / inject_Z (Z.of_nat (length l))))))
    end).

(** [series.max()] *)
Definition series_max (s : list cell) : result pynum :=
  result_bind (present s) (fun l =>
    match l with
    | [] => Ok NumNA
    | z :: l' => Ok (NumInt (fold_right Z.max z l'))
    end).

(** [(total / n) * 100] on a numpy integer and a Python int. *)
Definition percent_of (total : Z) (n : nat) : pyfloat :=
  match n with
  | O => if Z.eqb total 0 then FNaN else FInf (Z.ltb total 0)
  | _ => FNum (Qred (inject_Z total / inject_Z (Z.of_nat n) * inject_Z 100))
  end.

Module data_cards.
(** A card value: a literal text, or a number put in an f-string. *)
Inductive card : Type :=
  | Text (s : string)
  | Formatted (template : string) (v : pynum).

(** [f"{v:<spec>}"] with a float format: a missing value has none. *)
Definition format_float (template : string) (v : pynum) : result card :=
  match v with
  | NumNA => Raise TypeError
  | _ => Ok (Formatted template v)
  end.

(** Line 86: [(df["on_time"].sum() / len(df)) * 100] *)
Definition on_time_rate (df : DataFrame) : result pyfloat :=
  result_bind (getitem df "on_time") (fun s =>
  result_bind (series_sum s) (fun total =>
  Ok (percent_of total (len df)))).

Definition no_data : list card :=
  [Text "No Data"; Text "No Data"; Text "No Data"; Text "No Data";
   Text "No Data"].

Definition error : list card :=
  [Text "Error"; Text "Error"; Text "Error"; Text "Error"; Text "Error"].

(** Lines 84-99, the metrics of a frame that has rows. *)
Definition metrics (df : DataFrame) : M (list card) :=
  let total_flights := len df in
  let* arr_delay := lift (getitem df "arr_delay") in
  let* avg_delay := lift (series_mean arr_delay) in
  let* on_time_rate := lift (on_time_rate df) in
  let* distance := lift (getitem df "distance") in
  let* avg_distance := lift (series_mean distance) in
  let* max_delay := lift (series_max arr_delay) in
  let* _ := lift (format_float "{:.1f}" avg_delay) in
  logger DEBUG "Calculated metrics - Total: %s, Avg delay: %s, On-time: %s" ;;
  let total_flights_formatted :=
    Formatted "{:,}" (NumInt (Z.of_nat total_flights)) in
  let* avg_delay_formatted := lift (format_float "{:.1f}" avg_delay) in
  let on_time_rate_formatted :=
    Formatted "{:.1f}%" (NumFloat on_time_rate) in
  let* avg_distance_formatted := lift (format_float "{:,.0f}" avg_distance) in
  let max_delay_formatted := Formatted "{}" max_delay in
  ret [total_flights_formatted; avg_delay_formatted; on_time_rate_formatted;
       avg_distance_formatted; max_delay_formatted].

(** Lines 79-99, on the filtered frame. *)
Definition cards (df : DataFrame) : M (list card) :=
  if (len df =? 0)%nat then
    logger DEBUG "No data after filtering" ;;
    ret no_data
  else metrics df.

Definition update `{PyRuntime} (fs : gmap string data.file)
    (kwargs : gmap string pyval) : M (list card) :=
  try_except
    (logger DEBUG "Starting data cards update" ;;
     let* df0 := data.get_data_default fs in
     let* df := filter_data df0 kwargs in
     logger DEBUG "Filtered data shape: %s" ;;
     cards df)
    (fun _ => true)
    (fun e =>
       logger DEBUG "Error updating data cards: %s" ;;
       ret error).
End data_cards.

Module data_table.
Definition output : Type := (list string * list (list cell) * string)%type.

Definition no_data : output := ([], [], "No data available after filtering").

Definition update `{PyRuntime} `{Rendering} (fs : gmap string data.file)
    (kwargs : gmap string pyval) : M output :=
  try_except
    (logger DEBUG "Starting data table update" ;;
     let* df0 := data.get_data_default fs in
     let* df := filter_data df0 kwargs in
     logger DEBUG "Filtered data shape: %s" ;;
     if (len df =? 0)%nat then ret no_data
     else table_body df)
    (fun _ => true)
    (fun e =>
       logger DEBUG "Error updating data table: %s" ;;
       ret ([], [], String.append "Error loading data: " (exn_text e))).
End data_table.

(** The six chart callbacks share their frame:
[[
    empty_fig = go.Figure(); empty_fig.update_layout(title="No data available", ...)
    try:
        df = filter_data(get_data(), **kwargs)
        if len(df) == 0:
            return empty_fig, ""
        ...
    except Exception as e:
        ...
        return empty_fig, error_msg
]] *)
Module chart.
Definition empty_fig : figure :=
  {| title := "No data available";
     annotation := "No data is available to display";
     traces := [] |}.

Definition error_fig : figure :=
  {| title := "Error in chart";
     annotation := "An error occurred while updating this chart";
     traces := [] |}.

Definition update `{PyRuntime} `{Rendering} (name : string)
    (fs : gmap string data.file) (kwargs : gmap string pyval)
    : M (figure * string) :=
  try_except
    (let* df0 := data.get_data_default fs in
     let* df := filter_data df0 kwargs in
     if (len df =? 0)%nat then ret (empty_fig, "")
     else chart_body name kwargs df)
    (fun _ => true)
    (fun e => ret (error_fig, String.append "Error updating chart: " (exn_text e))).
End chart.

Module Scatterchart_Showing.
Definition update `{PyRuntime} `{Rendering} := chart.update "Scatterchart_Showing".
End Scatterchart_Showing.

Module airline_performance_horizontal_bar.
Definition update `{PyRuntime} `{Rendering} :=
  chart.update "airline_performance_horizontal_bar".
End airline_performance_horizontal_bar.

Module delay_by_weekday_bar_chart.
Definition update `{PyRuntime} `{Rendering} :=
  chart.update "delay_by_weekday_bar_chart".
End delay_by_weekday_bar_chart.

Module delay_distribution_box_plot.
Definition update `{PyRuntime} `{Rendering} :=
  chart.update "delay_distribution_box_plot".
End delay_distribution_box_plot.

Module flight_connections_map.
Definition update `{PyRuntime} `{Rendering} :=
  chart.update "flight_connections_map".
End flight_connections_map.

Module monthly_flight_trends_line_chart.
Definition update `{PyRuntime} `{Rendering} :=
  chart.update "monthly_flight_trends_line_chart".
End monthly_flight_trends_line_chart.

(** [display_count] of filter_component.py, lines 306-315: the two counts of
    ["{filtered_count:,} / {count:,} rows"]. *)
Definition display_count `{PyRuntime} (fs : gmap string data.file)
    (kwargs : gmap string pyval) : M (nat * nat) :=
  let* df := data.get_data_default fs in
  let count := len df in
  let* filtered_df := filter_data df kwargs in
  let filtered_count := len filtered_df in
  ret (filtered_count, count).

(** ** A runtime for the examples

    It reads decimal integer literals as floats and [YYYY-MM-DD] as dates,
    and stands for a reader that refuses every field of an [Int64] column
    that is not a plain integer and every record longer than the header;
    the theorems below do not depend on it. *)

Module example_runtime.
Definition is_leap (y : Z) : bool :=
  (Z.eqb (y mod 4) 0 && negb (Z.eqb (y mod 100) 0)) || Z.eqb (y mod 400) 0.

Definition days_in_month (y mo : Z) : Z :=
  if Z.eqb mo 2 then (if is_leap y then 29 else 28)
  else if existsb (Z.eqb mo) [4; 6; 9; 11] then 30 else 31.

(** Days since 1970-01-01 of a civil date. *)
Definition days_from_civil (y mo d : Z) : Z :=
  let y' := if Z.leb mo 2 then y - 1 else y in
  let era := y' / 400 in
  let yoe := y' - era * 400 in
  let doy := (153 * (if Z.ltb 2 mo then mo - 3 else mo + 9) + 2) / 5 + d - 1 in
  let doe := yoe * 365 + yoe / 4 - yoe / 100 + doy in
  era * 146097 + doe - 719468.

Definition digits (s : string) : option Z :=
  option_map Z.of_uint (NilEmpty.uint_of_string s).

Definition parse_ymd (s : string) : option Z :=
  if (String.length s =? 10)%nat
     && bool_decide (String.get 4 s = Some "-"%char)
     && bool_decide (String.get 7 s = Some "-"%char)
  then
    match digits (String.substring 0 4 s), digits (String.substring 5 2 s),
          digits (String.substring 8 2 s) with
    | Some y, Some mo, Some d =>
        if Z.leb 1 mo && Z.leb mo 12 && Z.leb 1 d && Z.leb d (days_in_month y mo)
        then Some (days_from_civil y mo d) else None
    | _, _, _ => None
    end
  else None.

#[global] Instance runtime : PyRuntime := {
  float_of_str s := option_map (fun z => FNum (inject_Z z)) (data.int_of_text s);
  pd_to_datetime v :=
    match v with
    | PStr s =>
        match parse_ymd s with
        | Some t => Ok (Some t)
        | None => Raise ValueError
        end
    | _ => Raise TypeError
    end;
  fromisoformat v :=
    match v with
    | PStr s =>
        match parse_ymd s with
        | Some t => Ok t
        | None => Raise ValueError
        end
    | _ => Raise TypeError
    end;
  strptime_ymd := parse_ymd;
  Int64_of_str _ := Raise ValueError;
  irregular_records _ _ := Raise ValueError;
  decompression_error _ := OtherError "BadGzipFile"
}.

#[global] Instance rendering : Rendering := {
  chart_body name _ df :=
    M_ret ({| title := name; annotation := ""; traces := [name] |}, "");
  table_body df := M_ret (columns df, rows df, "Showing rows");
  exn_text e :=
    match e with
    | KeyError k => k
    | TypeError => "TypeError"
    | ValueError => "ValueError"
    | FileNotFoundError => "FileNotFoundError"
    | OtherError cls => cls
    end
}.

Definition all : pyval := PList [PStr "all"].

(** A keyword bag with every key the callbacks receive. *)
Definition bag (year airline : pyval) (dmin dmax date_start date_end : pyval)
    : gmap string pyval :=
  <["year" := year]> (<["airline" := airline]>
  (<["destination_airport" := all]> (<["month" := all]>
  (<["day_of_week" := all]> (<["time_period" := all]>
  (<["delay_category" := all]>
  (<["flight_distance_min" := dmin]> (<["flight_distance_max" := dmax]>
  (<["date_start" := date_start]> (<["date_end" := date_end]> ∅)))))))))).

(** The two flights of the scenario of the specification. *)
Definition flight1 : list cell := [CInt 2022; CStr "A"; CInt 500; CInt 1].
Definition flight2 : list cell := [CInt 2023; CStr "B"; CInt 1500; CInt 0].

Definition two_flights : DataFrame :=
  {| columns := ["year"; "airline_name"; "distance"; "on_time"];
     rows := [flight1; flight2] |}.

(** Two flights, the distance of the second one missing. *)
Definition missing_distance : DataFrame :=
  {| columns := ["year"; "distance"; "date"];
     rows := [[CInt 2022; CInt 500; CDate 19000];
              [CInt 2022; NA; CDate 19001]] |}.

(** Three flights, the date of the second one missing. *)
Definition missing_date : DataFrame :=
  {| columns := ["year"; "distance"; "date"];
     rows := [[CInt 2022; CInt 500; CDate 19000];
              [CInt 2022; CInt 500; NA];
              [CInt 2022; CInt 500; CDate 19001]] |}.

Definition header : list string :=
  ["date"; "dep_delay_flag"; "arr_delay_flag"; "on_time"].

(** A delimited file whose second record carries the flag value 2. *)
Definition flags_file : data.file :=
  data.TextFile header
    [["2022-03-22"; "0"; "1"; "1"]; ["2022-03-23"; "2"; "2"; "2"]].

(** The two flights as a delimited file with the columns the loader and
    the cards read. *)
Definition flights_file : data.file :=
  data.TextFile
    ["year"; "airline_name"; "distance"; "on_time"; "date";
     "dep_delay_flag"; "arr_delay_flag"; "arr_delay"]
    [["2022"; "A"; "500"; "1"; "2022-03-22"; "0"; "0"; "-3"];
     ["2023"; "B"; "1500"; "0"; "2023-03-22"; "1"; "1"; "45"]].

Definition bad_date_file : data.file :=
  data.TextFile header
    [["2022-03-22"; "0"; "1"; "1"]; ["22 March 2022"; "0"; "0"; "1"]].

(** The filters of the scenario, the year as the dropdown supplies it. *)
Definition year_2022 : gmap string pyval :=
  bag (PList [PInt 2022]) all (PInt 0) (PInt 1000) PNone PNone.

Definition first_flight_only : DataFrame :=
  {| columns := columns two_flights; rows := [flight1] |}.

(** Every dimension names the sentinel; the bounds are those of
    [missing_distance] and of [complete_flights]. *)
Definition sentinel_filters : gmap string pyval :=
  bag all (PList [PStr "A"; PStr "all"]) (PInt 500) (PInt 500)
    (PStr "2022-01-08") (PStr "2022-01-09").

Definition complete_flights : DataFrame :=
  {| columns := ["year"; "distance"; "date"];
     rows := [[CInt 2022; CInt 500; CDate 19000];
              [CInt 2023; CInt 500; CDate 19001]] |}.

End example_runtime.

(** ** Vocabulary of the statements *)

(** The seven multi-select dimensions: keyword and column. *)
Definition multi_select_dims : list (string * string) :=
  [ ("year", "year"); ("airline", "airline_name");
    ("destination_airport", "dest"); ("month", "month_name");
    ("day_of_week", "day_of_week"); ("time_period", "time_period");
    ("delay_category", "delay_category") ].

Definition multi_select_keys : list string := map fst multi_select_dims.

(** The rows of [df] that satisfy [p], in their order. *)
Definition keep (p : list cell -> bool) (df : DataFrame) : DataFrame :=
  {| columns := columns df; rows := List.filter p (rows df) |}.

(** The value of [col] in [row], when [df] has that column. *)
Definition value_of (df : DataFrame) (col : string) (row : list cell)
    : option cell :=
  option_map (fun i => cell_at i row) (column_index col (columns df)).

(** Cells a datetime column holds: a timestamp or the missing marker. *)
Definition date_kind (c : cell) : bool :=
  match c with
  | NA | CDate _ => true
  | _ => false
  end.

(** Some cell of the date column is not of [date_kind]: comparing the column
    with a timestamp raises [TypeError]. *)
Definition bad_dates (df : DataFrame) : bool :=
  match column_index "date" (columns df) with
  | Some i => existsb (fun r => negb (date_kind (cell_at i r))) (rows df)
  | None => false
  end.



(** The parts of [filter_data]: the seven dimensions (lines 244-269), the
    distance range (lines 272-274), both together, and the two date bounds
    (lines 277-297). *)
Definition dimensions `{PyRuntime} (filters : gmap string pyval)
    (df : DataFrame) : M DataFrame :=
  let* df := filter_component.multi_select "year" "year" filters df in
  let* df := filter_component.multi_select "airline" "airline_name" filters df in
  let* df := filter_component.multi_select "destination_airport" "dest" filters df in
  let* df := filter_component.multi_select "month" "month_name" filters df in
  let* df := filter_component.multi_select "day_of_week" "day_of_week" filters df in
  let* df := filter_component.multi_select "time_period" "time_period" filters df in
  filter_component.multi_select "delay_category" "delay_category" filters df.

Definition distance_range `{PyRuntime} (filters : gmap string pyval)
    (df : DataFrame) : M DataFrame :=
  if has_column df "distance" then
    let* df := filter_component.distance_bound true "flight_distance_min" filters df in
    filter_component.distance_bound false "flight_distance_max" filters df
  else ret df.

Definition selection `{PyRuntime} (filters : gmap string pyval)
    (df : DataFrame) : M DataFrame :=
  let* df := dimensions filters df in
  distance_range filters df.

Definition date_range `{PyRuntime} (filters : gmap string pyval)
    (df : DataFrame) : M DataFrame :=
  let* df :=
    filter_component.date_bound true "date_start"
      "Could not parse start_date filter: %s. Error: %s" filters df in
  filter_component.date_bound false "date_end"
    "Could not parse end_date filter: %s. Error: %s" filters df.

(** [series.min()] and [series.max()] over the present timestamps, as
    [component()] computes the defaults of the date picker (lines 60-61). *)
Definition timestamps (s : list cell) : list Z :=
  omap (fun c => match c with CDate t => Some t | _ => None end) s.

Definition series_min (s : list cell) : result pynum :=
  result_bind (present s) (fun l =>
    match l with
    | [] => Ok NumNA
    | z :: l' => Ok (NumInt (fold_right Z.min z l'))
    end).

Definition date_min (s : list cell) : option Z :=
  match timestamps s with
  | [] => None
  | t :: l => Some (fold_right Z.min t l)
  end.

Definition date_max (s : list cell) : option Z :=
  match timestamps s with
  | [] => None
  | t :: l => Some (fold_right Z.max t l)
  end.

(** Every multi-select value of [filters] is a list that names the
    sentinel. *)
Definition unconstrained (filters : gmap string pyval) : Prop :=
  forall key, In key multi_select_keys ->
    exists l, filters !! key = Some (PList l) /\ In (PStr "all") l.

(** The range bounds of [filters] are the extremes of [df]: the distance
    bounds are the minimum and maximum of its distance column, the date
    bounds parse to the minimum and maximum of its date column. *)
Definition bounds_of_data `{PyRuntime} (df : DataFrame)
    (filters : gmap string pyval) : Prop :=
  exists distance date lo hi vstart vend first last,
    getitem df "distance" = Ok distance /\
    getitem df "date" = Ok date /\
    series_min distance = Ok (NumInt lo) /\
    series_max distance = Ok (NumInt hi) /\
    filters !! "flight_distance_min" = Some (PInt lo) /\
    filters !! "flight_distance_max" = Some (PInt hi) /\
    date_min date = Some first /\
    date_max date = Some last /\
    filters !! "date_start" = Some vstart /\
    filters !! "date_end" = Some vend /\
    vstart <> PNone /\ vend <> PNone /\
    pd_to_datetime vstart = Ok (Some first) /\
    pd_to_datetime vend = Ok (Some last).

(** No distance and no date of [df] is missing: the distance column holds
    integers, the date column timestamps. *)
Definition complete_ranges (df : DataFrame) : Prop :=
  forall row, In row (rows df) ->
    (exists d, value_of df "distance" row = Some (CInt d)) /\
    (exists t, value_of df "date" row = Some (CDate t)).



(** ** The steps of the pipeline, seen from outside

    Every step decides from the keyword bag and the column labels whether it
    raises, leaves the frame alone or tests each row; the lemmas below show
    that the code does what these decisions say. *)

(** A test [f] run over the rows: the rows it accepts, or the first
    exception. *)
Definition rowwise (f : list cell -> result bool) (df : DataFrame)
    : result DataFrame :=
  result_bind (result_mapM f (rows df)) (fun mask => Ok (getitem_mask df mask)).

Definition decided (d : result (option (list cell -> result bool)))
    (df : DataFrame) : result DataFrame :=
  result_bind d (fun o =>
    match o with
    | None => Ok df
    | Some f => rowwise f df
    end).

(** The row test read as a predicate: an exception counts as a rejection. *)
Definition accepts (f : list cell -> result bool) (row : list cell) : bool :=
  match f row with
  | Ok b => b
  | Raise _ => false
  end.

Definition multi_select_decision (key col : string)
    (filters : gmap string pyval) (cols : list string)
    : result (option (list cell -> result bool)) :=
  match filters !! key with
  | None => Raise (KeyError key)
  | Some v =>
      result_bind (py_len v) (fun n =>
        if (0 <? n)%nat then
          result_bind (py_in "all" v) (fun a =>
            if a then Ok None
            else
              match column_index col cols with
              | None => Raise (KeyError col)
              | Some i =>
                  match v with
                  | PList l =>
                      Ok (Some (fun r => Ok (existsb (cell_eq (cell_at i r)) l)))
                  | _ => Raise TypeError
                  end
              end)
        else Ok None)
  end.

Definition distance_decision `{PyRuntime} (ge : bool) (key : string)
    (filters : gmap string pyval) (cols : list string)
    : result (option (list cell -> result bool)) :=
  match column_index "distance" cols with
  | None => Raise (KeyError "distance")
  | Some i =>
      match filters !! key with
      | None => Raise (KeyError key)
      | Some v =>
          result_bind (py_float v) (fun b =>
            Ok (Some (fun r => cell_cmp_float ge b (cell_at i r))))
      end
  end.

Definition date_decision (ge : bool) (bound : option Z) (cols : list string)
    : result (option (list cell -> result bool)) :=
  match column_index "date" cols with
  | None => Raise (KeyError "date")
  | Some i => Ok (Some (fun r => cell_cmp_date ge bound (cell_at i r)))
  end.

(** What [date_bound] returns and logs. *)
Definition date_bound_outcome `{PyRuntime} (ge : bool) (key warning : string)
    (filters : gmap string pyval) (df : DataFrame) : M DataFrame :=
  match filters !! key with
  | None => (Raise (KeyError key), [])
  | Some PNone => (Ok df, [])
  | Some v =>
      match result_bind (pd_to_datetime v) (fun b =>
              decided (date_decision ge b (columns df)) df) with
      | Ok df' => (Ok df', [])
      | Raise e =>
          if filter_component.value_or_type_error e then
            match result_bind (fromisoformat v) (fun b =>
                    decided (date_decision ge (Some b) (columns df)) df) with
            | Ok df' => (Ok df', [])
            | Raise e' =>
                if filter_component.value_or_type_error e'
                then (Ok df, [mkLog WARNING warning])
                else (Raise e', [])
            end
          else (Raise e, [])
      end
  end.

(** A step that only removes rows, and accepts again what it has accepted. *)
Definition plain (s : DataFrame -> M DataFrame) : Prop :=
  forall df df' l, s df = (Ok df', l) ->
    columns df' = columns df /\
    incl (rows df') (rows df) /\
    forall df2, columns df2 = columns df -> incl (rows df2) (rows df') ->
      exists l2, s df2 = (Ok df2, l2).

(** The same for a date bound, among frames that agree on [bad_dates]. *)
Definition dated (s : DataFrame -> M DataFrame) : Prop :=
  forall df df' l, s df = (Ok df', l) ->
    columns df' = columns df /\
    incl (rows df') (rows df) /\
    bad_dates df' = bad_dates df /\
    forall df2, columns df2 = columns df -> incl (rows df2) (rows df') ->
      bad_dates df2 = bad_dates df ->
      exists l2, s df2 = (Ok df2, l2).



(** The distance column holds numbers or missing cells, as an [Int64]
    column does. *)
Definition numeric_distance (df : DataFrame) : Prop :=
  forall row c, In row (rows df) ->
    value_of df "distance" row = Some c -> is_Ok (numeric c).

(** ** Relating the two semantics *)

(** [h'] has every object of [h], unchanged, and maybe new ones. *)
Definition extends (h h' : Store.store) : Prop := exists ext, h' = h ++ ext.

(** In [h], the reference [r] is to an object that holds [t] and was
    allocated at [n] or later. *)
Definition holds (n : nat) (h : Store.store) (r : nat) (t : DataFrame) : Prop :=
  nth_error h r = Some t /\ (n <= r)%nat.

(** Two plain values in the two semantics: the same value. *)
Definition same {A} (h : Store.store) (a b : A) : Prop := a = b.

(** Run from the store [h], the computation [sm] on references does what
    [vm] does on values: it logs the same, raises the same or returns a
    result related by [R] in the final store, and only adds objects. *)
Definition simulates {A B} (R : Store.store -> A -> B -> Prop)
    (sm : Store.SM A) (vm : M B) (h : Store.store) : Prop :=
  match sm h with
  | (res, l, h') =>
      extends h h' /\ l = snd vm /\
      match res, fst vm with
      | Ok a, Ok b => R h' a b
      | Raise e, Raise e' => e = e'
      | _, _ => False
      end
  end.

(** The six chart callbacks. *)
Definition chart_callbacks `{PyRuntime} `{Rendering}
    : list (gmap string data.file -> gmap string pyval -> M (figure * string)) :=
  [ Scatterchart_Showing.update; airline_performance_horizontal_bar.update;
    delay_by_weekday_bar_chart.update; delay_distribution_box_plot.update;
    flight_connections_map.update; monthly_flight_trends_line_chart.update ].

(** The flag columns and the boolean columns [get_data] derives from them. *)
Definition flag_columns : list (string * string) :=
  [ ("dep_delay_flag", "dep_delay_flag_bool");
    ("arr_delay_flag", "arr_delay_flag_bool");
    ("on_time", "on_time_bool") ].


(** A row after [df[col] = series] put the cell [c] in it. *)
Definition set_cell (cols : list string) (col : string) (row : list cell)
    (c : cell) : list cell :=
  match column_index col cols with
  | Some i => <[i:=c]> (data.pad (length cols) row)
  | None => data.pad (length cols) row ++ [c]
  end.


(** ** What the pipeline selects *)


(** The cell of [col] in [row]; the missing marker when [df] has no such
    column. *)
Definition cell_of (df : DataFrame) (col : string) (row : list cell) : cell :=
  match value_of df col row with
  | Some c => c
  | None => NA
  end.








(** The keywords [filter_data] reads. *)
Definition filter_keys : list string :=
  multi_select_keys ++
  ["flight_distance_min"; "flight_distance_max"; "date_start"; "date_end"].

(** A step that returns a selection of the rows it was given. *)
Definition selects_rows (s : DataFrame -> M DataFrame) : Prop :=
  forall df df' l, s df = (Ok df', l) -> exists p, df' = keep p df.




(** ** What a loaded frame holds *)

(** Every cell of column [x], where [df] has it, satisfies [P]. *)
Definition column_holds (P : cell -> bool) (x : string) (df : DataFrame)
    : Prop :=
  forall row c, In row (rows df) -> value_of df x row = Some c -> P c = true.

Definition int_kind (c : cell) : bool :=
  match c with NA | CInt _ => true | _ => false end.

Definition str_kind (c : cell) : bool :=
  match c with NA | CStr _ => true | _ => false end.

Definition dtype_kind (d : data.dtype) : cell -> bool :=
  match d with data.dt_Int64 => int_kind | data.dt_str => str_kind end.


(** The columns [get_data] reads, in the order it reads them. *)
Definition required_columns : list string :=
  "date" :: map fst flag_columns.


(** ** What the callbacks report *)

(** [filter_data(get_data(), **kwargs)], the first statement of every
    callback. *)
Definition filtered_frame `{PyRuntime} (fs : gmap string data.file)
    (kwargs : gmap string pyval) : M DataFrame :=
  let* df0 := data.get_data_default fs in
  filter_data df0 kwargs.

(** Cells of a flag column: 0, 1 or missing. *)
Definition flag_kind (c : cell) : bool :=
  match c with
  | NA => true
  | CInt z => Z.eqb z 0 || Z.eqb z 1
  | _ => false
  end.

Definition is_one (c : cell) : bool :=
  match c with CInt z => Z.eqb z 1 | _ => false end.

(** The number of rows of [df] whose [col] is 1. *)
Definition count_ones (df : DataFrame) (col : string) : nat :=
  length (List.filter (fun r => is_one (cell_of df col r)) (rows df)).

(** A list that restricts its dimension: not empty, the sentinel not in
    it. *)
Definition restricting (l : list pyval) : Prop :=
  l <> [] /\ existsb (is_str "all") l = false.


(** ** src/components/data_table.py, the body of [update] *)

Module data_table_body.
(** Lines 99-100 *)
Definition priority_columns : list string :=
  [ "date"; "airline_name"; "flight"; "origin"; "dest"; "dep_time";
    "arr_time"; "dep_delay"; "arr_delay"; "on_time"; "delay_category";
    "distance" ].

Definition is_in (col : string) (l : list string) : bool :=
  existsb (String.eqb col) l.

(** [col.startswith('_')] *)
Definition starts_with_underscore (col : string) : bool :=
  match col with
  | String a _ => Ascii.eqb a "_"%char
  | EmptyString => false
  end.

(** Line 135: the test of the second loop. *)
Definition remaining (col : string) : bool :=
  negb (is_in col priority_columns)
  && negb (starts_with_underscore col)
  && negb (String.eqb col "index").

(** The ["field"] entries of [column_defs], in their order: the loop over
    the priority columns (lines 103-131), then the loop over the columns
    of the frame (lines 134-149). *)
Definition column_def_fields (df : DataFrame) : list string :=
  List.filter (fun col => is_in col (columns df)) priority_columns
  ++ List.filter remaining (columns df).
End data_table_body.


(** ** src/app.py *)

Module app.
(** Lines 42-51, the keys of [component_registry]. *)
Definition component_registry : list string :=
  [ "data_cards"; "data_table"; "delay_by_weekday_bar_chart";
    "monthly_flight_trends_line_chart";
    "airline_performance_horizontal_bar"; "delay_distribution_box_plot";
    "flight_connections_map"; "Scatterchart_Showing" ].

Definition registered (component_id : string) : bool :=
  existsb (String.eqb component_id) component_registry.

(** What [display_page] returns: the layout of the whole application, of
    one component with the filter, or the message of line 93. *)
Inductive page : Type :=
  | app_layout
  | component_layout (component_id : string)
  | component_not_found.

(** The callback returns a page or fails the assertion of line 109. *)
Inductive outcome : Type :=
  | Page (p : page)
  | AssertionError.

(** Lines 64-94 *)
Definition get_component_layout (component_id : string) : page :=
  if registered component_id then component_layout component_id
  else component_not_found.

(** Lines 104-110: the argument after the first ["--component"] that has
    one. *)
Fixpoint component_arg (argv : list string) : option string :=
  match argv with
  | [] => None
  | arg :: rest =>
      if String.eqb arg "--component" then
        match rest with
        | next :: _ => Some next
        | [] => component_arg rest
        end
      else component_arg rest
  end.

(** [s.lstrip("/")] and [s.rstrip("/")] *)
Fixpoint lstrip (s : string) : string :=
  match s with
  | String a s' => if Ascii.eqb a "/"%char then lstrip s' else s
  | EmptyString => EmptyString
  end.

Fixpoint rstrip (s : string) : string :=
  match s with
  | EmptyString => EmptyString
  | String a s' =>
      match rstrip s' with
      | EmptyString =>
          if Ascii.eqb a "/"%char then EmptyString
          else String a EmptyString
      | r => String a r
      end
  end.

(** [s.strip("/")] *)
Definition strip (s : string) : string := rstrip (lstrip s).

(** Lines 116-126 *)
Definition route (pathname : string) : page :=
  if String.eqb pathname "/" || String.eqb pathname "" then app_layout
  else
    let component_id := strip pathname in
    if registered component_id then get_component_layout component_id
    else app_layout.

(** Lines 101-126; [isidentifier] is [str.isidentifier]. *)
Definition display_page (isidentifier : string -> bool)
    (argv : list string) (pathname : string) : outcome :=
  match component_arg argv with
  | Some component_id =>
      if isidentifier component_id
      then Page (route (String.append "/" component_id))
      else AssertionError
  | None => Page (route pathname)
  end.
End app.


(** ** Inputs of the further examples *)

Module example_calls.
Import example_runtime.




(** Two flights without a distance column. *)
Definition no_distance : DataFrame :=
  {| columns := ["year"; "date"];
     rows := [[CInt 2022; CDate 19000]; [CInt 2023; CDate 19001]] |}.

(** A delimited file without a date column. *)
Definition no_date_file : data.file :=
  data.TextFile ["year"; "on_time"] [["2022"; "1"]].

Definition no_date_frame : DataFrame :=
  {| columns := ["year"; "on_time"]; rows := [[CInt 2022; CInt 1]] |}.
End example_calls.

(** ** Lemmas on results, masks and the value monad *)

Lemma result_bind_Ok {A B} (r : result A) (f : A -> result B) (b : B) :
  result_bind r f = Ok b -> exists a, r = Ok a /\ f a = Ok b.
Proof. destruct r as [a|e]; simpl; [eauto | discriminate]. Qed.

Lemma result_mapM_Ok {A B} (f : A -> result B) (l : list A) (ys : list B) :
  result_mapM f l = Ok ys -> Forall2 (fun x y => f x = Ok y) l ys.
Proof.
  revert ys. induction l as [|x l IH]; simpl; intros ys Hys.
  - injection Hys as <-. constructor.
  - apply result_bind_Ok in Hys as (y & Hy & Hys).
    apply result_bind_Ok in Hys as (ys' & Hys' & Hys).
    injection Hys as <-. constructor; auto.
Qed.

Lemma result_mapM_total {A B} (f : A -> result B) (g : A -> B) (l : list A) :
  Forall (fun x => f x = Ok (g x)) l -> result_mapM f l = Ok (map g l).
Proof.
  induction 1 as [|x l Hx _ IH]; simpl; [reflexivity|].
  now rewrite Hx, IH.
Qed.

Lemma select_rows_map {A} (p : A -> bool) (l : list A) :
  select_rows l (map p l) = List.filter p l.
Proof.
  induction l as [|x l IH]; simpl; [reflexivity|].
  rewrite IH. reflexivity.
Qed.

Lemma select_rows_Forall2 {A B} (f : B -> result bool) (g : A -> B)
    (l : list A) (mask : list bool) :
  Forall2 (fun x y => f x = Ok y) (map g l) mask ->
  select_rows l mask
  = List.filter (fun x => match f (g x) with Ok b => b | Raise _ => false end) l
  /\ Forall (fun x => is_Ok (f (g x))) l.
Proof.
  revert mask. induction l as [|x l IH]; simpl; intros mask Hm.
  - inversion Hm; subst. split; [reflexivity | constructor].
  - inversion Hm as [|? b ? mask' Hx Hl]; subst.
    destruct (IH _ Hl) as [-> Hall]. rewrite Hx. split.
    + reflexivity.
    + constructor; [exists b | ]; assumption.
Qed.

Lemma filter_all {A} (p : A -> bool) (l : list A) :
  Forall (fun x => p x = true) l -> List.filter p l = l.
Proof.
  induction 1 as [|x l Hx _ IH]; simpl; [reflexivity|].
  now rewrite Hx, IH.
Qed.

Lemma frame_eta (df : DataFrame) :
  {| columns := columns df; rows := rows df |} = df.
Proof. destruct df; reflexivity. Qed.

Lemma keep_all (p : list cell -> bool) (df : DataFrame) :
  Forall (fun r => p r = true) (rows df) -> keep p df = df.
Proof.
  intros Hall. unfold keep. rewrite (filter_all _ _ Hall). apply frame_eta.
Qed.

Lemma M_bind_Ok {A B} (c : M A) (f : A -> M B) (b : B) (l : list log_record) :
  M_bind c f = (Ok b, l) ->
  exists a l1 l2, c = (Ok a, l1) /\ f a = (Ok b, l2) /\ l = l1 ++ l2.
Proof.
  destruct c as [[a|e] l1]; simpl; [|discriminate].
  destruct (f a) as [r l2] eqn:Hf. intros [= -> <-]. eauto 6.
Qed.

Lemma M_bind_run {A B} (c : M A) (f : A -> M B) (a : A) (r : result B)
    (l1 l2 : list log_record) :
  c = (Ok a, l1) -> f a = (r, l2) -> M_bind c f = (r, l1 ++ l2).
Proof. intros -> Hf. simpl. now rewrite Hf. Qed.

Lemma M_bind_assoc {A B C} (c : M A) (f : A -> M B) (g : B -> M C) :
  M_bind (M_bind c f) g = M_bind c (fun a => M_bind (f a) g).
Proof.
  destruct c as [[a|e] l1]; simpl; [|reflexivity].
  destruct (f a) as [[b|e] l2]; simpl; [|reflexivity].
  destruct (g b) as [r l3]. now rewrite app_assoc.
Qed.

Lemma M_bind_ret {A} (c : M A) : M_bind c M_ret = c.
Proof.
  destruct c as [[a|e] l]; simpl; [|reflexivity]. now rewrite app_nil_r.
Qed.



(** ** What each step of the pipeline computes *)
Lemma result_mapM_map {A B C} (f : B -> result C) (g : A -> B) (l : list A) :
  result_mapM f (map g l) = result_mapM (fun x => f (g x)) l.
Proof.
  induction l as [|x l IH]; simpl; [reflexivity|]. now rewrite IH.
Qed.

Lemma column_index_lt (col : string) (cols : list string) (i : nat) :
  column_index col cols = Some i -> (i < length cols)%nat.
Proof.
  revert i. induction cols as [|c cols IH]; simpl; intros i; [discriminate|].
  destruct (String.eqb c col).
  - intros [= <-]. lia.
  - destruct (column_index col cols) as [j|]; simpl; [|discriminate].
    intros [= <-]. specialize (IH j eq_refl). lia.
Qed.

Section steps.
Context `{PyRuntime}.

Lemma getitem_value (df : DataFrame) (col : string) :
  getitem df col =
  match column_index col (columns df) with
  | Some i => Ok (map (cell_at i) (rows df))
  | None => Raise (KeyError col)
  end.
Proof. reflexivity. Qed.

Lemma multi_select_value (key col : string) (filters : gmap string pyval)
    (df : DataFrame) :
  filter_component.multi_select key col filters df
  = (decided (multi_select_decision key col filters (columns df)) df, []).
Proof.
  unfold filter_component.multi_select, multi_select_decision,
    filter_component.kw, decided, rowwise.
  cbn [bind ret raise M_monad df_getitem df_getitem_mask value_frames].
  destruct (filters !! key) as [v|]; [|reflexivity].
  cbn [M_bind M_ret lift ret raise M_monad M_raise app].
  destruct (py_len v) as [n|e]; [|reflexivity].
  cbn [M_bind M_ret lift ret raise M_monad M_raise app result_bind].
  destruct (0 <? n)%nat; [|reflexivity].
  destruct (py_in "all" v) as [[|]|e]; try reflexivity.
  cbn [M_bind M_ret lift ret raise M_monad M_raise app result_bind negb].
  rewrite getitem_value.
  destruct (column_index col (columns df)) as [i|]; [|reflexivity].
  cbn [M_bind M_ret lift ret raise M_monad M_raise app result_bind negb].
  destruct v; try reflexivity.
  cbn [isin M_bind M_ret lift ret raise M_monad M_raise app result_bind].
  rewrite map_map.
  rewrite (result_mapM_total _ (fun r => existsb (cell_eq (cell_at i r)) l)).
  - reflexivity.
  - apply List.Forall_forall. reflexivity.
Qed.

Lemma distance_bound_value (ge : bool) (key : string)
    (filters : gmap string pyval) (df : DataFrame) :
  filter_component.distance_bound ge key filters df
  = (decided (distance_decision ge key filters (columns df)) df, []).
Proof.
  unfold filter_component.distance_bound, distance_decision,
    filter_component.kw, decided, rowwise.
  cbn [bind ret raise M_monad df_getitem df_getitem_mask value_frames].
  rewrite getitem_value.
  destruct (column_index "distance" (columns df)) as [i|]; [|reflexivity].
  cbn [M_bind M_ret lift ret raise M_monad M_raise app result_bind].
  destruct (filters !! key) as [v|]; [|reflexivity].
  cbn [M_bind M_ret lift ret raise M_monad M_raise app result_bind].
  destruct (py_float v) as [b|e]; [|reflexivity].
  cbn [M_bind M_ret lift ret raise M_monad M_raise app result_bind].
  rewrite result_mapM_map.
  destruct (result_mapM _ (rows df)); reflexivity.
Qed.

Lemma date_compare_value (ge : bool) (bound : option Z) (df : DataFrame) :
  filter_component.date_compare ge bound df
  = (decided (date_decision ge bound (columns df)) df, []).
Proof.
  unfold filter_component.date_compare, date_decision, decided, rowwise.
  cbn [bind ret raise M_monad df_getitem df_getitem_mask value_frames].
  rewrite getitem_value.
  destruct (column_index "date" (columns df)) as [i|]; [|reflexivity].
  cbn [M_bind M_ret lift ret raise M_monad M_raise app result_bind].
  rewrite result_mapM_map.
  destruct (result_mapM _ (rows df)); reflexivity.
Qed.

Lemma date_bound_value (ge : bool) (key warning : string)
    (filters : gmap string pyval) (df : DataFrame) :
  filter_component.date_bound ge key warning filters df
  = date_bound_outcome ge key warning filters df.
Proof.
  unfold filter_component.date_bound, date_bound_outcome, filter_component.kw.
  cbn [bind ret raise try_except logger M_monad].
  destruct (filters !! key) as [v|]; [|reflexivity].
  cbn [M_bind M_ret app].
  assert (Hgen :
    M_try
      (M_bind (lift (pd_to_datetime v))
         (fun b => filter_component.date_compare ge b df))
      filter_component.value_or_type_error
      (fun _ =>
         M_try
           (M_bind (lift (fromisoformat v))
              (fun b => filter_component.date_compare ge (Some b) df))
           filter_component.value_or_type_error
           (fun _ => M_bind (M_log WARNING warning) (fun _ => M_ret df)))
    = match result_bind (pd_to_datetime v) (fun b =>
            decided (date_decision ge b (columns df)) df) with
    | Ok df' => (Ok df', [])
    | Raise e =>
        if filter_component.value_or_type_error e then
          match result_bind (fromisoformat v) (fun b =>
                  decided (date_decision ge (Some b) (columns df)) df) with
          | Ok df' => (Ok df', [])
          | Raise e' =>
              if filter_component.value_or_type_error e'
              then (Ok df, [mkLog WARNING warning])
              else (Raise e', [])
          end
        else (Raise e, [])
    end).
  { assert (Hatt : forall A (p : result A) (g : A -> option Z),
      M_bind (lift p) (fun b => filter_component.date_compare ge (g b) df)
      = (result_bind p (fun b =>
           decided (date_decision ge (g b) (columns df)) df), [])).
    { intros A [a|e] g; cbn [lift ret raise M_monad M_bind M_ret M_raise
        result_bind]; [|reflexivity].
      rewrite date_compare_value. reflexivity. }
    rewrite (Hatt _ (pd_to_datetime v) (fun b => b)).
    rewrite (Hatt _ (fromisoformat v) Some).
    destruct (result_bind (pd_to_datetime v) _) as [d|e]; [reflexivity|].
    cbn [M_try]. destruct (filter_component.value_or_type_error e);
      [|reflexivity].
    destruct (result_bind (fromisoformat v) _) as [d|e']; [reflexivity|].
    cbn [M_try]. destruct (filter_component.value_or_type_error e');
      reflexivity. }
  assert (Heta : forall A (x : M A), (let (r, l') := x in (r, l')) = x)
    by (intros A [r l]; reflexivity).
  destruct v; rewrite Heta; try exact Hgen. reflexivity.
Qed.

(** [filter_data] is its two halves between the log calls. *)
Lemma filter_data_eq (t : DataFrame) (filters : gmap string pyval) :
  filter_data t filters =
  M_bind (M_log DEBUG "Starting data filtering. Original shape: %s") (fun _ =>
  M_bind (M_log DEBUG "Applied filters: %s") (fun _ =>
  M_bind (selection filters t) (fun df =>
  M_bind (date_range filters df) (fun df =>
  M_bind (M_log DEBUG "Filtering complete. Final shape: %s") (fun _ =>
  M_bind (M_log DEBUG "Filtered data sample:\n%s") (fun _ =>
  M_ret df)))))).
Proof.
  unfold filter_data, filter_component.filter_data, selection, dimensions,
    distance_range, date_range.
  cbn [bind ret logger M_monad df_copy df_has_column value_frames].
  cbn [M_bind M_ret M_log app].
  repeat match goal with
  | |- context [M_bind ?s _] =>
      lazymatch s with
      | M_bind _ _ => fail
      | _ => idtac
      end;
      destruct s as [[?|?] ?]; cbn [M_bind M_ret M_log app];
      try reflexivity
  | |- context [if ?b then _ else _] => destruct b
  end;
  repeat rewrite <- app_assoc; reflexivity.
Qed.
End steps.

(** ** Steps that only remove rows *)

Lemma select_rows_accepts {A} (f : A -> result bool) (l : list A)
    (mask : list bool) :
  Forall2 (fun x y => f x = Ok y) l mask ->
  select_rows l mask
  = List.filter (fun x => match f x with Ok b => b | Raise _ => false end) l
  /\ Forall (fun x => is_Ok (f x)) l.
Proof.
  intros Hm. rewrite <- (map_id l) in Hm.
  apply (select_rows_Forall2 f (fun x => x)) in Hm. exact Hm.
Qed.

Lemma rowwise_Ok (f : list cell -> result bool) (df df' : DataFrame) :
  rowwise f df = Ok df' ->
  df' = keep (accepts f) df /\ Forall (fun r => is_Ok (f r)) (rows df).
Proof.
  unfold rowwise. intros Hr.
  apply result_bind_Ok in Hr as (mask & Hmask & [= <-]).
  apply result_mapM_Ok, select_rows_accepts in Hmask as [Hsel Hall].
  split; [|exact Hall]. unfold getitem_mask, keep. now rewrite Hsel.
Qed.

Lemma rowwise_accepted (f : list cell -> result bool) (df : DataFrame) :
  Forall (fun r => f r = Ok true) (rows df) -> rowwise f df = Ok df.
Proof.
  intros Hall. unfold rowwise.
  rewrite (result_mapM_total f (fun _ => true) _ Hall). simpl.
  unfold getitem_mask. rewrite select_rows_map.
  rewrite filter_all; [now rewrite frame_eta|]. apply List.Forall_forall. reflexivity.
Qed.

Lemma keep_columns (p : list cell -> bool) (df : DataFrame) :
  columns (keep p df) = columns df.
Proof. reflexivity. Qed.

Lemma keep_incl (p : list cell -> bool) (df : DataFrame) :
  incl (rows (keep p df)) (rows df).
Proof. intros r Hr. apply filter_In in Hr. tauto. Qed.

Lemma incl_keep_accepted (f : list cell -> result bool) (df df2 : DataFrame) :
  incl (rows df2) (rows (keep (accepts f) df)) ->
  Forall (fun r => f r = Ok true) (rows df2).
Proof.
  intros Hincl. apply List.Forall_forall. intros r Hr.
  apply Hincl, filter_In in Hr as [_ Hacc]. unfold accepts in Hacc.
  destruct (f r) as [[|]|]; congruence.
Qed.

(** A decision taken from the column labels gives a [plain] step. *)
Lemma decided_plain
    (D : list string -> result (option (list cell -> result bool))) :
  plain (fun df => (decided (D (columns df)) df, [])).
Proof.
  intros df df' l [= Hd <-]. unfold decided in *.
  destruct (D (columns df)) as [[f|]|e] eqn:HD; simpl in Hd; [| |discriminate].
  - apply rowwise_Ok in Hd as [-> Hall].
    split; [reflexivity|]. split; [apply keep_incl|].
    intros df2 Hcols Hincl. exists []. rewrite Hcols, HD. simpl.
    now rewrite (rowwise_accepted f df2 (incl_keep_accepted f df df2 Hincl)).
  - injection Hd as <-. split; [reflexivity|]. split; [apply incl_refl|].
    intros df2 Hcols _. exists []. now rewrite Hcols, HD.
Qed.

Lemma plain_bind (s1 s2 : DataFrame -> M DataFrame) :
  plain s1 -> plain s2 -> plain (fun df => M_bind (s1 df) s2).
Proof.
  intros P1 P2 df df' l Hb.
  apply M_bind_Ok in Hb as (d1 & l1 & l2 & H1 & H2 & ->).
  destruct (P1 _ _ _ H1) as (Hc1 & Hi1 & Hs1).
  destruct (P2 _ _ _ H2) as (Hc2 & Hi2 & Hs2).
  split; [congruence|]. split; [eapply incl_tran; eassumption|].
  intros df2 Hcols Hincl.
  destruct (Hs1 df2 Hcols (incl_tran Hincl Hi2)) as [k1 Hk1].
  destruct (Hs2 df2 (eq_trans Hcols (eq_sym Hc1)) Hincl) as [k2 Hk2].
  exists (k1 ++ k2). eapply M_bind_run; eassumption.
Qed.

Lemma plain_if_column (col : string) (s : DataFrame -> M DataFrame) :
  plain s -> plain (fun df => if has_column df col then s df else M_ret df).
Proof.
  intros P df df' l Hs. unfold has_column in *.
  destruct (column_index col (columns df)) eqn:Hidx; cbn iota in Hs.
  - destruct (P _ _ _ Hs) as (Hc & Hi & Hst). split; [exact Hc|].
    split; [exact Hi|]. intros df2 Hcols Hincl. rewrite Hcols, Hidx. auto.
  - injection Hs as <- <-. split; [reflexivity|]. split; [apply incl_refl|].
    intros df2 Hcols _. rewrite Hcols, Hidx. now exists [].
Qed.

Lemma plain_ext (s s' : DataFrame -> M DataFrame) :
  (forall df, s df = s' df) -> plain s' -> plain s.
Proof.
  intros Heq P df df' l Hs. rewrite Heq in Hs.
  destruct (P _ _ _ Hs) as (Hc & Hi & Hst).
  split; [exact Hc|]. split; [exact Hi|]. intros df2 Hcols Hincl.
  rewrite Heq. auto.
Qed.

Section plain_steps.
Context `{PyRuntime}.

Lemma multi_select_plain key col filters :
  plain (filter_component.multi_select key col filters).
Proof.
  eapply plain_ext; [apply multi_select_value|].
  apply (decided_plain (multi_select_decision key col filters)).
Qed.

Lemma distance_bound_plain ge key filters :
  plain (filter_component.distance_bound ge key filters).
Proof.
  eapply plain_ext; [apply distance_bound_value|].
  apply (decided_plain (distance_decision ge key filters)).
Qed.

Lemma dimensions_plain filters : plain (dimensions filters).
Proof.
  unfold dimensions. cbn [bind ret M_monad].
  repeat (apply plain_bind; [apply multi_select_plain|]).
  apply multi_select_plain.
Qed.

Lemma distance_range_plain filters : plain (distance_range filters).
Proof.
  unfold distance_range. cbn [bind ret M_monad].
  apply plain_if_column.
  apply plain_bind; apply distance_bound_plain.
Qed.

Lemma selection_plain filters : plain (selection filters).
Proof.
  unfold selection. cbn [bind ret M_monad].
  apply plain_bind; [apply dimensions_plain | apply distance_range_plain].
Qed.
End plain_steps.

(** ** The date bounds *)

Lemma date_mask (ge : bool) (b : option Z) (i : nat) (l : list (list cell)) :
  result_mapM (fun r => cell_cmp_date ge b (cell_at i r)) l
  = if existsb (fun r => negb (date_kind (cell_at i r))) l
    then Raise TypeError
    else Ok (map (accepts (fun r => cell_cmp_date ge b (cell_at i r))) l).
Proof.
  induction l as [|r l IH]; simpl; [reflexivity|].
  rewrite IH. unfold accepts at 2.
  destruct (cell_at i r); simpl; try reflexivity;
    destruct (existsb _ l); reflexivity.
Qed.

Lemma date_decided (ge : bool) (b : option Z) (df : DataFrame) :
  decided (date_decision ge b (columns df)) df
  = match column_index "date" (columns df) with
    | None => Raise (KeyError "date")
    | Some i =>
        if bad_dates df then Raise TypeError
        else Ok (keep (accepts (fun r => cell_cmp_date ge b (cell_at i r))) df)
    end.
Proof.
  unfold decided, date_decision, bad_dates, rowwise.
  destruct (column_index "date" (columns df)) as [i|]; [|reflexivity].
  simpl. rewrite date_mask.
  destruct (existsb _ (rows df)); [reflexivity|]. simpl.
  unfold getitem_mask, keep. now rewrite select_rows_map.
Qed.

Lemma keep_bad_dates (p : list cell -> bool) (df : DataFrame) :
  bad_dates df = false -> bad_dates (keep p df) = false.
Proof.
  unfold bad_dates. simpl.
  destruct (column_index "date" (columns df)) as [i|]; [|reflexivity].
  intros Hb. apply not_true_is_false. intros Hex.
  apply existsb_exists in Hex as (r & Hr & Hk).
  apply filter_In in Hr as [Hr _].
  assert (existsb (fun r => negb (date_kind (cell_at i r))) (rows df) = true)
    by (apply existsb_exists; eauto).
  congruence.
Qed.

Section dated_steps.
Context `{PyRuntime}.

Lemma date_bound_dated ge key warning filters :
  dated (filter_component.date_bound ge key warning filters).
Proof.
  assert (Hgen : forall df df2 df' l,
    columns df2 = columns df -> bad_dates df2 = bad_dates df ->
    date_bound_outcome ge key warning filters df = (Ok df', l) ->
    columns df' = columns df /\ incl (rows df') (rows df) /\
    bad_dates df' = bad_dates df /\
    (incl (rows df2) (rows df') ->
     exists l2, date_bound_outcome ge key warning filters df2 = (Ok df2, l2))).
  { intros df df2 df' l Hcols Hbad. unfold date_bound_outcome.
    destruct (filters !! key) as [v|]; [|discriminate].
    assert (Hatt : forall A (p : result A) (g : A -> option Z),
      match result_bind p (fun b =>
              decided (date_decision ge (g b) (columns df)) df) with
      | Ok d =>
          columns d = columns df /\ incl (rows d) (rows df) /\
          bad_dates d = bad_dates df /\
          (incl (rows df2) (rows d) ->
           result_bind p (fun b =>
             decided (date_decision ge (g b) (columns df2)) df2) = Ok df2)
      | Raise e =>
          result_bind p (fun b =>
            decided (date_decision ge (g b) (columns df2)) df2) = Raise e
      end).
    { intros A [a|e] g; simpl; [|reflexivity].
      rewrite !date_decided, Hcols, Hbad.
      destruct (column_index "date" (columns df)) as [i|]; [|reflexivity].
      destruct (bad_dates df) eqn:Hb; [reflexivity|].
      split; [reflexivity|]. split; [apply keep_incl|].
      split; [now apply keep_bad_dates|]. intros Hincl. f_equal.
      apply keep_all. apply incl_keep_accepted in Hincl.
      eapply List.Forall_impl; [|exact Hincl]. simpl. intros r Hr.
      unfold accepts. now rewrite Hr. }
    pose proof (Hatt _ (pd_to_datetime v) (fun b => b)) as H1.
    pose proof (Hatt _ (fromisoformat v) Some) as H2.
    set (r1 := result_bind (pd_to_datetime v) (fun b =>
                 decided (date_decision ge b (columns df)) df)) in *.
    set (r1' := result_bind (pd_to_datetime v) (fun b =>
                  decided (date_decision ge b (columns df2)) df2)) in *.
    set (r2 := result_bind (fromisoformat v) (fun b =>
                 decided (date_decision ge (Some b) (columns df)) df)) in *.
    set (r2' := result_bind (fromisoformat v) (fun b =>
                  decided (date_decision ge (Some b) (columns df2)) df2)) in *.
    assert (Hv :
      match r1 with
      | Ok d => (Ok d, [])
      | Raise e =>
          if filter_component.value_or_type_error e then
            match r2 with
            | Ok d => (Ok d, [])
            | Raise e' =>
                if filter_component.value_or_type_error e'
                then (Ok df, [mkLog WARNING warning])
                else (Raise e', [])
            end
          else (Raise e, [])
      end = (Ok df', l) ->
      columns df' = columns df /\ incl (rows df') (rows df) /\
      bad_dates df' = bad_dates df /\
      (incl (rows df2) (rows df') ->
       exists l2,
         match r1' with
         | Ok d => (Ok d, [])
         | Raise e =>
             if filter_component.value_or_type_error e then
               match r2' with
               | Ok d => (Ok d, [])
               | Raise e' =>
                   if filter_component.value_or_type_error e'
                   then (Ok df2, [mkLog WARNING warning])
                   else (Raise e', [])
               end
             else (Raise e, [])
         end = (Ok df2, l2))).
    { destruct r1 as [d|e].
      - intros [= <- <-]. destruct H1 as (?&?&?&H1).
        repeat (split; [assumption|]). intros Hi. rewrite (H1 Hi). eauto.
      - rewrite H1.
        destruct (filter_component.value_or_type_error e); [|discriminate].
        destruct r2 as [d|e'].
        + intros [= <- <-]. destruct H2 as (?&?&?&H2).
          repeat (split; [assumption|]). intros Hi. rewrite (H2 Hi). eauto.
        + rewrite H2.
          destruct (filter_component.value_or_type_error e');
            [|discriminate].
          intros [= <- <-]. eauto 6 using incl_refl. }
    destruct v; try exact Hv.
    intros [= <- <-]. eauto 6 using incl_refl. }
  intros df df' l. rewrite date_bound_value. intros Hs.
  destruct (Hgen df df df' l eq_refl eq_refl Hs) as (Hc & Hi & Hb & _).
  split; [exact Hc|]. split; [exact Hi|]. split; [exact Hb|].
  intros df2 Hcols Hincl Hbad. rewrite date_bound_value.
  destruct (Hgen df df2 df' l Hcols Hbad Hs) as (_ & _ & _ & Hst). auto.
Qed.
End dated_steps.

(** ** The whole pipeline *)

Lemma dated_bind (s1 s2 : DataFrame -> M DataFrame) :
  dated s1 -> dated s2 -> dated (fun df => M_bind (s1 df) s2).
Proof.
  intros P1 P2 df df' l Hb.
  apply M_bind_Ok in Hb as (d1 & l1 & l2 & H1 & H2 & ->).
  destruct (P1 _ _ _ H1) as (Hc1 & Hi1 & Hb1 & Hs1).
  destruct (P2 _ _ _ H2) as (Hc2 & Hi2 & Hb2 & Hs2).
  split; [congruence|]. split; [eapply incl_tran; eassumption|].
  split; [congruence|].
  intros df2 Hcols Hincl Hbad.
  destruct (Hs1 df2 Hcols (incl_tran Hincl Hi2) Hbad) as [k1 Hk1].
  destruct (Hs2 df2 (eq_trans Hcols (eq_sym Hc1)) Hincl
              (eq_trans Hbad (eq_sym Hb1))) as [k2 Hk2].
  exists (k1 ++ k2). eapply M_bind_run; eassumption.
Qed.

Section whole.
Context `{PyRuntime}.

Lemma date_range_dated filters : dated (date_range filters).
Proof.
  unfold date_range. cbn [bind M_monad].
  apply dated_bind; apply date_bound_dated.
Qed.

(** A normal return of [filter_data] is a normal return of its halves. *)
Lemma filter_data_Ok t filters t' l :
  filter_data t filters = (Ok t', l) ->
  exists T l1 l2,
    selection filters t = (Ok T, l1) /\
    date_range filters T = (Ok t', l2) /\
    l = [mkLog DEBUG "Starting data filtering. Original shape: %s";
         mkLog DEBUG "Applied filters: %s"] ++ l1 ++ l2 ++
        [mkLog DEBUG "Filtering complete. Final shape: %s";
         mkLog DEBUG "Filtered data sample:\n%s"].
Proof.
  rewrite filter_data_eq. cbn [M_bind M_log].
  destruct (selection filters t) as [[T|e] l1] eqn:Hsel; cbn [M_bind];
    [|discriminate].
  destruct (date_range filters T) as [[R|e] l2] eqn:Hdate;
    cbn [M_bind M_ret app]; [|discriminate].
  intros [= <- <-]. exists T, l1, l2. rewrite Hdate. repeat split.
Qed.

Lemma filter_data_run t filters T t' l1 l2 :
  selection filters t = (Ok T, l1) ->
  date_range filters T = (Ok t', l2) ->
  fst (filter_data t filters) = Ok t'.
Proof.
  intros H1 H2. rewrite filter_data_eq. cbn [M_bind M_log].
  rewrite H1. cbn [M_bind]. rewrite H2. reflexivity.
Qed.

End whole.

(** ** Rows without a distance *)

Lemma has_column_index (df : DataFrame) (col : string) :
  has_column df col = true -> exists i, column_index col (columns df) = Some i.
Proof.
  unfold has_column. destruct (column_index col (columns df)); [eauto|discriminate].
Qed.


Section present_distance.
Context `{PyRuntime}.

Lemma distance_bound_present ge key filters (df df' : DataFrame)
    (l : list log_record) i row :
  filter_component.distance_bound ge key filters df = (Ok df', l) ->
  column_index "distance" (columns df) = Some i ->
  In row (rows df') -> is_na (cell_at i row) = false.
Proof.
  rewrite distance_bound_value. intros [= Hd _] Hidx Hrow.
  unfold decided, distance_decision in Hd. rewrite Hidx in Hd.
  destruct (filters !! key) as [v|]; [|discriminate].
  destruct (py_float v) as [b|e]; [|discriminate]. simpl in Hd.
  apply rowwise_Ok in Hd as [-> _].
  apply filter_In in Hrow as [_ Hacc]. unfold accepts in Hacc.
  destruct (cell_at i row); try reflexivity. discriminate.
Qed.

Lemma selection_present filters t T l i row :
  selection filters t = (Ok T, l) ->
  column_index "distance" (columns t) = Some i ->
  In row (rows T) -> is_na (cell_at i row) = false.
Proof.
  unfold selection. cbn [bind M_monad]. intros Hsel Hidx Hrow.
  apply M_bind_Ok in Hsel as (d7 & l1 & l2 & Hdim & Hdist & _).
  destruct (dimensions_plain _ _ _ _ Hdim) as (Hc & _ & _).
  unfold distance_range, has_column in Hdist. rewrite Hc, Hidx in Hdist.
  cbn [bind M_monad] in Hdist.
  apply M_bind_Ok in Hdist as (d8 & la & lb & Hmin & Hmax & _).
  destruct (distance_bound_plain _ _ _ _ _ _ Hmax) as (_ & Hi & _).
  eapply distance_bound_present; [exact Hmin | congruence | auto].
Qed.

End present_distance.

(** ** Filters that restrict nothing *)

Lemma fold_min_le (z : Z) (l : list Z) (x : Z) :
  In x (z :: l) -> fold_right Z.min z l <= x.
Proof.
  induction l as [|y l IH]; simpl.
  - intros [->|[]]. lia.
  - intros [->|[->|Hx]].
    + assert (fold_right Z.min x l <= x) by (apply IH; now left). lia.
    + lia.
    + assert (fold_right Z.min z l <= x) by (apply IH; now right). lia.
Qed.

Lemma fold_max_ge (z : Z) (l : list Z) (x : Z) :
  In x (z :: l) -> x <= fold_right Z.max z l.
Proof.
  induction l as [|y l IH]; simpl.
  - intros [->|[]]. lia.
  - intros [->|[->|Hx]].
    + assert (x <= fold_right Z.max x l) by (apply IH; now left). lia.
    + lia.
    + assert (x <= fold_right Z.max z l) by (apply IH; now right). lia.
Qed.

Lemma present_In (s : list cell) (l : list Z) (d : Z) :
  present s = Ok l -> In (CInt d) s -> In d l.
Proof.
  unfold present. intros Hp Hd.
  apply result_bind_Ok in Hp as (os & Hos & [= <-]).
  apply result_mapM_Ok in Hos.
  apply list_elem_of_In, list_elem_of_omap. exists (Some d). split; [|reflexivity].
  apply list_elem_of_In.
  induction Hos as [|c o s os Hc _ IH]; [destruct Hd|].
  destruct Hd as [->|Hd]; [left | right; auto].
  simpl in Hc. congruence.
Qed.

Lemma series_min_le (s : list cell) (lo d : Z) :
  series_min s = Ok (NumInt lo) -> In (CInt d) s -> lo <= d.
Proof.
  unfold series_min. intros Hm Hd.
  apply result_bind_Ok in Hm as (l & Hl & Hm).
  pose proof (present_In _ _ _ Hl Hd) as Hin.
  destruct l as [|z l]; [destruct Hin|]. injection Hm as <-.
  now apply fold_min_le.
Qed.

Lemma series_max_ge (s : list cell) (hi d : Z) :
  series_max s = Ok (NumInt hi) -> In (CInt d) s -> d <= hi.
Proof.
  unfold series_max. intros Hm Hd.
  apply result_bind_Ok in Hm as (l & Hl & Hm).
  pose proof (present_In _ _ _ Hl Hd) as Hin.
  destruct l as [|z l]; [destruct Hin|]. injection Hm as <-.
  now apply fold_max_ge.
Qed.

Lemma timestamps_In (s : list cell) (t : Z) :
  In (CDate t) s -> In t (timestamps s).
Proof.
  intros Ht. apply list_elem_of_In, list_elem_of_omap.
  exists (CDate t). split; [now apply list_elem_of_In | reflexivity].
Qed.

Lemma date_min_le (s : list cell) (first t : Z) :
  date_min s = Some first -> In (CDate t) s -> first <= t.
Proof.
  unfold date_min. intros Hm Ht. apply timestamps_In in Ht.
  destruct (timestamps s) as [|z l]; [destruct Ht|]. injection Hm as <-.
  now apply fold_min_le.
Qed.

Lemma date_max_ge (s : list cell) (last t : Z) :
  date_max s = Some last -> In (CDate t) s -> t <= last.
Proof.
  unfold date_max. intros Hm Ht. apply timestamps_In in Ht.
  destruct (timestamps s) as [|z l]; [destruct Ht|]. injection Hm as <-.
  now apply fold_max_ge.
Qed.

Lemma float_le_int (a b : Z) :
  float_le (FNum (inject_Z a)) (FNum (inject_Z b)) = true <-> a <= b.
Proof.
  simpl. rewrite Qle_bool_iff, <- Zle_Qle. reflexivity.
Qed.

Lemma multi_select_unconstrained key col (filters : gmap string pyval)
    (l : list pyval) :
  filters !! key = Some (PList l) -> In (PStr "all") l ->
  forall cols, multi_select_decision key col filters cols = Ok None.
Proof.
  intros Hk Hall cols. unfold multi_select_decision. rewrite Hk. simpl.
  destruct l as [|v l]; [destruct Hall|]. simpl Nat.ltb. cbv iota.
  assert (existsb (is_str "all") (v :: l) = true) as ->; [|reflexivity].
  apply existsb_exists. exists (PStr "all"). split; [assumption|reflexivity].
Qed.

Section identity.
Context `{PyRuntime}.

Lemma dimensions_unconstrained filters df :
  unconstrained filters -> dimensions filters df = (Ok df, []).
Proof.
  intros Hu. unfold dimensions. cbn [bind M_monad].
  assert (Hstep : forall key col (d : DataFrame), In key multi_select_keys ->
    filter_component.multi_select (m:=M) key col filters d = (Ok d, [])).
  { intros key col d Hin. destruct (Hu key Hin) as (l & Hk & Hall).
    rewrite multi_select_value.
    now rewrite (multi_select_unconstrained key col filters l Hk Hall). }
  repeat (rewrite Hstep by (simpl; tauto); cbn [M_bind app]). reflexivity.
Qed.
End identity.

Lemma getitem_Ok (df : DataFrame) (col : string) (s : list cell) :
  getitem df col = Ok s ->
  exists i, column_index col (columns df) = Some i /\ s = map (cell_at i) (rows df).
Proof.
  unfold getitem. destruct (column_index col (columns df)) as [i|];
    [|discriminate].
  intros [= <-]. eauto.
Qed.

Section identity_ranges.
Context `{PyRuntime}.

Lemma distance_range_identity filters t :
  bounds_of_data t filters -> complete_ranges t ->
  distance_range filters t = (Ok t, []).
Proof.
  intros (distance & date & lo & hi & vs & ve & first & last & Hdist & _ &
          Hlo & Hhi & Hmin & Hmax & _) Hcomplete.
  apply getitem_Ok in Hdist as (i & Hidx & ->).
  assert (Hrows : forall (ge : bool) key b,
    filters !! key = Some (PInt b) ->
    (forall d, In (CInt d) (map (cell_at i) (rows t)) ->
       if ge then b <= d else d <= b) ->
    filter_component.distance_bound (m:=M) ge key filters t = (Ok t, [])).
  { intros ge key b Hkey Hb. rewrite distance_bound_value. f_equal.
    unfold decided, distance_decision. rewrite Hidx, Hkey. simpl.
    apply rowwise_accepted. apply List.Forall_forall. intros row Hrow.
    destruct (Hcomplete row Hrow) as [[d Hd] _].
    unfold value_of in Hd. rewrite Hidx in Hd. injection Hd as Hd.
    rewrite Hd. simpl. f_equal.
    assert (Hin : In (CInt d) (map (cell_at i) (rows t)))
      by (rewrite <- Hd; now apply in_map).
    specialize (Hb d Hin). destruct ge; now apply float_le_int. }
  unfold distance_range, has_column. rewrite Hidx. cbn [bind M_monad].
  rewrite (Hrows true _ lo Hmin) by (intros d; apply series_min_le, Hlo).
  cbn [M_bind app].
  rewrite (Hrows false _ hi Hmax) by (intros d; apply series_max_ge, Hhi).
  reflexivity.
Qed.

Lemma date_range_identity filters t :
  bounds_of_data t filters -> complete_ranges t ->
  date_range filters t = (Ok t, []).
Proof.
  intros (distance & date & lo & hi & vs & ve & first & last & _ & Hdate &
          _ & _ & _ & _ & Hfirst & Hlast & Hstart & Hend & Hvs & Hve &
          Hps & Hpe) Hcomplete.
  apply getitem_Ok in Hdate as (i & Hidx & ->).
  assert (Hrows : forall (ge : bool) key warning v b,
    filters !! key = Some v -> v <> PNone ->
    pd_to_datetime v = Ok (Some b) ->
    (forall d, In (CDate d) (map (cell_at i) (rows t)) ->
       if ge then b <= d else d <= b) ->
    filter_component.date_bound (m:=M) ge key warning filters t = (Ok t, [])).
  { intros ge key warning v b Hkey Hv Hparse Hb. rewrite date_bound_value.
    unfold date_bound_outcome. rewrite Hkey, Hparse. simpl result_bind.
    assert (decided (date_decision ge (Some b) (columns t)) t = Ok t) as ->.
    { unfold decided, date_decision. rewrite Hidx. simpl.
      apply rowwise_accepted. apply List.Forall_forall. intros row Hrow.
      destruct (Hcomplete row Hrow) as [_ [d Hd]].
      unfold value_of in Hd. rewrite Hidx in Hd. injection Hd as Hd.
      rewrite Hd. simpl. f_equal.
      assert (Hin : In (CDate d) (map (cell_at i) (rows t)))
        by (rewrite <- Hd; now apply in_map).
      specialize (Hb d Hin). destruct ge; now apply Z.leb_le. }
    destruct v; congruence. }
  unfold date_range. cbn [bind M_monad].
  rewrite (Hrows true _ _ vs first Hstart Hvs Hps)
    by (intros d; apply date_min_le, Hfirst).
  cbn [M_bind app].
  rewrite (Hrows false _ _ ve last Hend Hve Hpe)
    by (intros d; apply date_max_ge, Hlast).
  reflexivity.
Qed.

End identity_ranges.

(** ** Keyword bags that agree on what the pipeline reads *)

Lemma M_bind_ext {A B} (c : M A) (f g : A -> M B) :
  (forall a, f a = g a) -> M_bind c f = M_bind c g.
Proof. intros Hfg. destruct c as [[a|e] l]; simpl; [now rewrite Hfg | reflexivity]. Qed.

Section extensionality.
Context `{PyRuntime}.
Variables filters1 filters2 : gmap string pyval.
Hypothesis same_dimensions : forall key col cols,
  In (key, col) multi_select_dims ->
  multi_select_decision key col filters1 cols
  = multi_select_decision key col filters2 cols.
Hypothesis same_distances : forall key,
  In key ["flight_distance_min"; "flight_distance_max"] ->
  filters1 !! key = filters2 !! key.

Lemma multi_select_ext key col (df : DataFrame) :
  In (key, col) multi_select_dims ->
  filter_component.multi_select (m:=M) key col filters1 df
  = filter_component.multi_select key col filters2 df.
Proof.
  intros Hin. rewrite !multi_select_value.
  now rewrite (same_dimensions key col (columns df) Hin).
Qed.

Lemma distance_bound_ext ge key (df : DataFrame) :
  In key ["flight_distance_min"; "flight_distance_max"] ->
  filter_component.distance_bound (m:=M) ge key filters1 df
  = filter_component.distance_bound ge key filters2 df.
Proof.
  intros Hin. rewrite !distance_bound_value. unfold distance_decision.
  now rewrite (same_distances key Hin).
Qed.

Lemma date_bound_ext ge key warning (df : DataFrame) :
  filters1 !! key = filters2 !! key ->
  filter_component.date_bound (m:=M) ge key warning filters1 df
  = filter_component.date_bound ge key warning filters2 df.
Proof.
  intros Hkey. rewrite !date_bound_value. unfold date_bound_outcome.
  now rewrite Hkey.
Qed.

Lemma selection_ext t : selection filters1 t = selection filters2 t.
Proof.
  unfold selection. cbn [bind M_monad].
  assert (Hdim : dimensions filters1 t = dimensions filters2 t).
  { unfold dimensions. cbn [bind M_monad].
    do 6 (rewrite multi_select_ext by (simpl; tauto);
          apply M_bind_ext; intros ?).
    apply multi_select_ext. simpl; tauto. }
  rewrite Hdim. apply M_bind_ext; intros df.
  unfold distance_range. cbn [bind ret M_monad].
  destruct (has_column df "distance"); [|reflexivity].
  rewrite distance_bound_ext by (simpl; tauto).
  apply M_bind_ext; intros ?.
  apply distance_bound_ext. simpl; tauto.
Qed.

Hypothesis same_dates : forall key,
  In key ["date_start"; "date_end"] -> filters1 !! key = filters2 !! key.

Lemma filter_data_ext t : filter_data t filters1 = filter_data t filters2.
Proof.
  rewrite !filter_data_eq.
  do 2 (apply M_bind_ext; intros _).
  rewrite selection_ext. apply M_bind_ext; intros df.
  assert (Hdate : date_range filters1 df = date_range filters2 df).
  { unfold date_range. cbn [bind M_monad].
    rewrite (date_bound_ext true "date_start") by (apply same_dates; simpl; tauto).
    apply M_bind_ext; intros ?.
    apply date_bound_ext, same_dates. simpl; tauto. }
  now rewrite Hdate.
Qed.
End extensionality.


(** ** Range bounds that cannot be read *)


Section date_errors.
Context `{PyRuntime}.




End date_errors.

Lemma rowwise_total (f : list cell -> result bool) (df : DataFrame) :
  Forall (fun r => is_Ok (f r)) (rows df) ->
  rowwise f df = Ok (keep (accepts f) df).
Proof.
  intros Hall. unfold rowwise.
  rewrite (result_mapM_total f (accepts f)).
  - simpl. unfold getitem_mask, keep. now rewrite select_rows_map.
  - eapply List.Forall_impl; [|exact Hall]. intros r [b Hb].
    unfold accepts. now rewrite Hb.
Qed.

Lemma has_column_columns (df df' : DataFrame) (col : string) :
  columns df' = columns df -> has_column df' col = has_column df col.
Proof. unfold has_column. now intros ->. Qed.

Section distance_errors.
Context `{PyRuntime}.






End distance_errors.

(** ** The pipeline on references does what it does on values *)


Lemma extends_refl h : extends h h.
Proof. exists []. now rewrite app_nil_r. Qed.

Lemma extends_trans h1 h2 h3 : extends h1 h2 -> extends h2 h3 -> extends h1 h3.
Proof. intros [e1 ->] [e2 ->]. exists (e1 ++ e2). now rewrite app_assoc. Qed.

Lemma extends_nth_error h h' r (t : DataFrame) :
  extends h h' -> nth_error h r = Some t -> nth_error h' r = Some t.
Proof.
  intros [ext ->] Hr. rewrite nth_error_app1; [exact Hr|].
  apply nth_error_Some. congruence.
Qed.

Lemma holds_extends n h h' r t :
  extends h h' -> holds n h r t -> holds n h' r t.
Proof. intros Hext [Hr Hn]. split; [eapply extends_nth_error; eauto | exact Hn]. Qed.

Lemma holds_lt n h r t : holds n h r t -> (n <= length h)%nat.
Proof.
  intros [Hr Hn]. assert (r < length h)%nat by (apply nth_error_Some; congruence).
  lia.
Qed.

Lemma sim_ret {A B} (R : Store.store -> A -> B -> Prop) a b h :
  R h a b -> simulates R (Store.SM_ret a) (M_ret b) h.
Proof. intros HR. unfold simulates. simpl. auto using extends_refl. Qed.

Lemma sim_raise {A B} (R : Store.store -> A -> B -> Prop) e h :
  simulates R (Store.SM_raise e) (M_raise e) h.
Proof. unfold simulates. simpl. auto using extends_refl. Qed.

Lemma sim_log lv s h : simulates same (Store.SM_log lv s) (M_log lv s) h.
Proof. unfold simulates, same. simpl. auto using extends_refl. Qed.

Lemma sim_lift {A} (r : result A) h :
  simulates same (lift (m:=Store.SM) r) (lift (m:=M) r) h.
Proof. destruct r; [now apply sim_ret | apply sim_raise]. Qed.

Lemma sim_bind {A A' B B'} (R1 : Store.store -> A -> A' -> Prop)
    (R2 : Store.store -> B -> B' -> Prop) sm vm (f : A -> Store.SM B) (g : A' -> M B') h :
  simulates R1 sm vm h ->
  (forall h' a a', extends h h' -> R1 h' a a' -> simulates R2 (f a) (g a') h') ->
  simulates R2 (Store.SM_bind sm f) (M_bind vm g) h.
Proof.
  unfold simulates, Store.SM_bind. intros H1 H2.
  destruct (sm h) as [[[a|e] l1] h1], vm as [[a'|e'] l1'];
    simpl in *; destruct H1 as (Hext & -> & HR); try contradiction.
  - specialize (H2 h1 a a' Hext HR).
    destruct (f a h1) as [[r l2] h2], (g a') as [r' l2']. simpl in *.
    destruct H2 as (Hext2 & -> & HR2).
    split; [eapply extends_trans; eassumption|]. split; [reflexivity|exact HR2].
  - subst. auto.
Qed.

Lemma sim_try {A B} (R : Store.store -> A -> B -> Prop) sm vm catches
    (hs : exn -> Store.SM A) (hv : exn -> M B) h :
  simulates R sm vm h ->
  (forall h' e, extends h h' -> simulates R (hs e) (hv e) h') ->
  simulates R (Store.SM_try sm catches hs) (M_try vm catches hv) h.
Proof.
  unfold simulates, Store.SM_try, M_try. intros H1 H2.
  destruct (sm h) as [[[a|e] l1] h1], vm as [[a'|e'] l1'];
    simpl in *; destruct H1 as (Hext & -> & HR); try contradiction.
  - auto.
  - subst e'. destruct (catches e); [|simpl; auto].
    specialize (H2 h1 e Hext).
    destruct (hs e h1) as [[r l2] h2], (hv e) as [r' l2']. simpl in *.
    destruct H2 as (Hext2 & -> & HR2).
    split; [eapply extends_trans; eassumption|]. split; [reflexivity|exact HR2].
Qed.

(** The frame operations *)
Lemma sim_copy n h r t :
  holds n h r t ->
  simulates (holds (length h)) (df_copy (m:=Store.SM) r) (df_copy (m:=M) t) h.
Proof.
  intros [Hr Hn]. unfold simulates. simpl. unfold Store.deref, Store.alloc. rewrite Hr.
  split; [now exists [t]|]. split; [reflexivity|]. split; [|lia].
  rewrite nth_error_app2, Nat.sub_diag by lia. reflexivity.
Qed.

Lemma sim_getitem_mask n h r t mask :
  holds n h r t ->
  simulates (holds n) (df_getitem_mask (m:=Store.SM) r mask)
    (df_getitem_mask (m:=M) t mask) h.
Proof.
  intros Hh. pose proof (holds_lt _ _ _ _ Hh) as Hlen. destruct Hh as [Hr Hn].
  unfold simulates. simpl. unfold Store.deref, Store.alloc. rewrite Hr.
  split; [now eexists|]. split; [reflexivity|]. split; [|lia].
  rewrite nth_error_app2, Nat.sub_diag by lia. reflexivity.
Qed.

Lemma sim_getitem n h r t col :
  holds n h r t ->
  simulates same (df_getitem (m:=Store.SM) r col) (df_getitem (m:=M) t col) h.
Proof.
  intros [Hr Hn]. unfold simulates. simpl. unfold Store.deref. rewrite Hr.
  apply (sim_lift (getitem t col) h).
Qed.

Lemma sim_has_column n h r t col :
  holds n h r t ->
  simulates same (df_has_column (m:=Store.SM) r col) (df_has_column (m:=M) t col) h.
Proof.
  intros [Hr Hn]. unfold simulates. simpl. unfold Store.deref. rewrite Hr.
  simpl. unfold same. auto using extends_refl.
Qed.

Section simulation.
Context `{PyRuntime}.

Lemma sim_kw (filters : gmap string pyval) key h :
simulates same (filter_component.kw (m:=Store.SM) filters key)
  (filter_component.kw (m:=M) filters key) h.
Proof.
unfold filter_component.kw. destruct (filters !! key).
- now apply sim_ret.
- apply sim_raise.
Qed.

Lemma sim_multi_select key col filters n h r t :
holds n h r t ->
simulates (holds n)
  (filter_component.multi_select (m:=Store.SM) key col filters r)
  (filter_component.multi_select (m:=M) key col filters t) h.
Proof.
intros Hh. unfold filter_component.multi_select.
cbn [bind ret Store.SM_monad M_monad].
eapply sim_bind; [apply sim_kw|]. intros h1 v x' E1 Hs; red in Hs; subst x'.
eapply sim_bind; [apply sim_lift|]. intros h2 k x' E2 Hs; red in Hs; subst x'.
eapply sim_bind with (R1 := same).
{ destruct (0 <? k)%nat; [|now apply sim_ret].
  eapply sim_bind; [apply sim_lift|]. intros h3 a x' E3 Hs; red in Hs; subst x'.
  now apply sim_ret. }
intros h3 b x' E3 Hs; red in Hs; subst x'.
assert (Hh3 : holds n h3 r t)
  by (eapply holds_extends; [|exact Hh]; eauto using extends_trans).
destruct b; [|now apply sim_ret].
eapply sim_bind; [eapply sim_getitem; exact Hh3|]. intros h4 s x' E4 Hs; red in Hs; subst x'.
eapply sim_bind; [apply sim_lift|]. intros h5 mask x' E5 Hs; red in Hs; subst x'.
eapply sim_getitem_mask.
eapply holds_extends; [|exact Hh3]; eauto using extends_trans.
Qed.

Lemma sim_distance_bound ge key filters n h r t :
holds n h r t ->
simulates (holds n)
  (filter_component.distance_bound (m:=Store.SM) ge key filters r)
  (filter_component.distance_bound (m:=M) ge key filters t) h.
Proof.
intros Hh. unfold filter_component.distance_bound.
cbn [bind ret Store.SM_monad M_monad].
eapply sim_bind; [eapply sim_getitem; exact Hh|]. intros h1 s x' E1 Hs; red in Hs; subst x'.
eapply sim_bind; [apply sim_kw|]. intros h2 v x' E2 Hs; red in Hs; subst x'.
eapply sim_bind; [apply sim_lift|]. intros h3 b x' E3 Hs; red in Hs; subst x'.
eapply sim_bind; [apply sim_lift|]. intros h4 mask x' E4 Hs; red in Hs; subst x'.
eapply sim_getitem_mask.
eapply holds_extends; [|exact Hh]; eauto using extends_trans.
Qed.

Lemma sim_date_compare ge bound n h r t :
holds n h r t ->
simulates (holds n)
  (filter_component.date_compare (m:=Store.SM) ge bound r)
  (filter_component.date_compare (m:=M) ge bound t) h.
Proof.
intros Hh. unfold filter_component.date_compare.
cbn [bind ret Store.SM_monad M_monad].
eapply sim_bind; [eapply sim_getitem; exact Hh|]. intros h1 s x' E1 Hs; red in Hs; subst x'.
eapply sim_bind; [apply sim_lift|]. intros h2 mask x' E2 Hs; red in Hs; subst x'.
eapply sim_getitem_mask.
eapply holds_extends; [|exact Hh]; eauto using extends_trans.
Qed.

Lemma sim_date_bound ge key warning filters n h r t :
holds n h r t ->
simulates (holds n)
  (filter_component.date_bound (m:=Store.SM) ge key warning filters r)
  (filter_component.date_bound (m:=M) ge key warning filters t) h.
Proof.
intros Hh. unfold filter_component.date_bound.
cbn [bind ret try_except logger Store.SM_monad M_monad].
eapply sim_bind; [apply sim_kw|]. intros h1 v x' E1 Hs; red in Hs; subst x'.
assert (Hh1 : holds n h1 r t) by (eapply holds_extends; eauto).
assert (Htry : simulates (holds n)
  (Store.SM_try
     (Store.SM_bind (lift (pd_to_datetime v))
        (fun bound => filter_component.date_compare ge bound r))
     filter_component.value_or_type_error
     (fun _ =>
        Store.SM_try
          (Store.SM_bind (lift (fromisoformat v))
             (fun bound => filter_component.date_compare ge (Some bound) r))
          filter_component.value_or_type_error
          (fun _ => Store.SM_bind (Store.SM_log WARNING warning) (fun _ => Store.SM_ret r))))
  (M_try
     (M_bind (lift (pd_to_datetime v))
        (fun bound => filter_component.date_compare ge bound t))
     filter_component.value_or_type_error
     (fun _ =>
        M_try
          (M_bind (lift (fromisoformat v))
             (fun bound => filter_component.date_compare ge (Some bound) t))
          filter_component.value_or_type_error
          (fun _ => M_bind (M_log WARNING warning) (fun _ => M_ret t))))
  h1).
{ apply sim_try.
  - eapply sim_bind; [apply sim_lift|]. intros h2 b x' E2 Hs; red in Hs; subst x'.
    apply sim_date_compare. eapply holds_extends; eauto.
  - intros h2 _ E2. apply sim_try.
    + eapply sim_bind; [apply sim_lift|]. intros h3 b x' E3 Hs; red in Hs; subst x'.
      apply sim_date_compare.
      eapply holds_extends; [|exact Hh1]; eauto using extends_trans.
    + intros h3 _ E3. eapply sim_bind; [apply sim_log|].
      intros h4 ? ? E4 _. apply sim_ret.
      eapply holds_extends; [|exact Hh1]; eauto using extends_trans. }
destruct v; try exact Htry. now apply sim_ret.
Qed.

Lemma extends_length (h h' : Store.store) : extends h h' -> (length h <= length h')%nat.
Proof. intros [ext ->]. rewrite length_app. lia. Qed.

Lemma holds_le n n' h r t : (n' <= n)%nat -> holds n h r t -> holds n' h r t.
Proof. intros Hle [Hr Hn]. split; [exact Hr|lia]. Qed.

Lemma sim_filter_data filters h r t :
nth_error h r = Some t ->
simulates (holds (length h)) (Store.filter_data r filters)
  (filter_data t filters) h.
Proof.
intros Hr. assert (Hh : holds 0 h r t) by (split; [exact Hr|lia]).
unfold Store.filter_data, filter_data, filter_component.filter_data.
cbn [bind ret logger Store.SM_monad M_monad].
eapply sim_bind; [apply sim_log|]. intros h1 ? ? E1 _.
eapply sim_bind; [apply sim_log|]. intros h2 ? ? E2 _.
assert (E02 : extends h h2) by eauto using extends_trans.
eapply sim_bind; [eapply sim_copy, holds_extends; [exact E02|exact Hh]|].
intros h3 r0 t0 E3 H0. apply (holds_le _ (length h)) in H0;
  [|now apply extends_length].
eapply sim_bind; [apply sim_multi_select; exact H0|]. clear dependent r0.
clear dependent t0. intros h4 r1 t1 E4 H1.
do 6 (eapply sim_bind; [apply sim_multi_select; eassumption|];
      intros ? ? ? ? ?).
eapply sim_bind; [eapply sim_has_column; eassumption|].
intros h11 b x' E11 Hs; red in Hs; subst x'.
eapply sim_bind with (R1 := holds (length h)).
{ destruct b; [|apply sim_ret; eapply holds_extends; eassumption].
  eapply sim_bind;
    [apply sim_distance_bound; eapply holds_extends; eassumption|].
  intros ? ? ? ? ?. now apply sim_distance_bound. }
intros ? ? ? ? ?.
eapply sim_bind; [apply sim_date_bound; eassumption|]. intros ? ? ? ? ?.
eapply sim_bind; [apply sim_date_bound; eassumption|]. intros ? ? ? ? ?.
eapply sim_bind; [apply sim_log|]. intros ? ? ? ? _.
eapply sim_bind; [apply sim_log|]. intros ? ? ? ? _.
apply sim_ret. eapply holds_extends; [|eassumption].
eauto using extends_trans.
Qed.
End simulation.

(** ** The loader: column assignment and the derived columns *)

Lemma column_index_app (x : string) (cols more : list string) (j : nat) :
  column_index x cols = Some j -> column_index x (cols ++ more) = Some j.
Proof.
  revert j. induction cols as [|c cols IH]; simpl; intros j; [discriminate|].
  destruct (String.eqb c x); [auto|].
  destruct (column_index x cols) as [k|]; simpl; [|discriminate].
  intros [= <-]. now rewrite (IH k eq_refl).
Qed.

Lemma column_index_new (col : string) (cols : list string) :
  column_index col cols = None ->
  column_index col (cols ++ [col]) = Some (length cols).
Proof.
  induction cols as [|c cols IH]; simpl.
  - now rewrite String.eqb_refl.
  - destruct (String.eqb c col); [discriminate|].
    destruct (column_index col cols); simpl; [discriminate|].
    intros _. now rewrite IH.
Qed.

Lemma column_index_inj (x y : string) (cols : list string) (i : nat) :
  column_index x cols = Some i -> column_index y cols = Some i -> x = y.
Proof.
  revert i. induction cols as [|c cols IH]; simpl; intros i; [discriminate|].
  destruct (String.eqb c x) eqn:Hx, (String.eqb c y) eqn:Hy.
  - apply String.eqb_eq in Hx, Hy. congruence.
  - intros [= <-]. destruct (column_index y cols); simpl; discriminate.
  - destruct (column_index x cols); simpl; [|discriminate].
    intros [= <-]. discriminate.
  - destruct (column_index x cols) as [j|]; simpl; [|discriminate].
    destruct (column_index y cols) as [k|]; simpl; [|discriminate].
    intros [= <-] [= ->]. now apply (IH j).
Qed.

Lemma length_pad (n : nat) (row : list cell) : length (data.pad n row) = n.
Proof.
  unfold data.pad. rewrite length_firstn, length_app, repeat_length. lia.
Qed.

Lemma cell_at_pad (n j : nat) (row : list cell) :
  (j < n)%nat -> cell_at j (data.pad n row) = cell_at j row.
Proof.
  intros Hj. unfold cell_at, data.pad. rewrite nth_firstn.
  destruct (j <? n)%nat eqn:Hlt; [|apply Nat.ltb_ge in Hlt; lia].
  destruct (Nat.lt_ge_cases j (length row)) as [Hin|Hout].
  - now rewrite app_nth1.
  - rewrite app_nth2 by lia. rewrite (nth_overflow row) by lia.
    apply nth_repeat.
Qed.


Lemma cell_at_insert_ne (i j : nat) (c : cell) (row : list cell) :
  i <> j -> cell_at j (<[i:=c]> row) = cell_at j row.
Proof.
  intros Hij. unfold cell_at. rewrite !nth_lookup.
  now rewrite list_lookup_insert_ne.
Qed.


Lemma setitem_rows (df : DataFrame) (col : string) (s : list cell) :
  rows (data.setitem df col s)
  = data.zip_with (set_cell (columns df) col) (rows df) s.
Proof.
  unfold data.setitem, set_cell.
  destruct (column_index col (columns df)); reflexivity.
Qed.


(** The cells of the other columns. *)
Lemma setitem_value_other (df : DataFrame) (col x : string) (s : list cell)
    (row : list cell) (c v : cell) :
  x <> col -> value_of df x row = Some v ->
  value_of (data.setitem df col s) x (set_cell (columns df) col row c)
  = Some v.
Proof.
  unfold value_of, data.setitem, set_cell. intros Hne Hv.
  destruct (column_index x (columns df)) as [j|] eqn:Hj; [|discriminate].
  injection Hv as <-. pose proof (column_index_lt _ _ _ Hj) as Hlt.
  destruct (column_index col (columns df)) as [i|] eqn:Hidx; simpl.
  - rewrite Hj. simpl. f_equal. rewrite cell_at_insert_ne.
    + now apply cell_at_pad.
    + intros <-. apply Hne. eapply column_index_inj; eassumption.
  - rewrite (column_index_app _ _ [col] _ Hj). simpl. f_equal.
    unfold cell_at. rewrite app_nth1 by now rewrite length_pad.
    now apply cell_at_pad.
Qed.

Lemma derive_bool_Ok flag new (df df' : DataFrame) (l : list log_record) :
  data.derive_bool flag new df = (Ok df', l) ->
  exists i, column_index flag (columns df) = Some i /\
    df' = data.setitem df new (map (fun r => data.eq_one (cell_at i r)) (rows df)).
Proof.
  unfold data.derive_bool. cbn [bind ret M_monad]. rewrite getitem_value.
  destruct (column_index flag (columns df)) as [i|]; [|discriminate].
  simpl. intros [= <- _]. exists i. now rewrite map_map.
Qed.





Section loader.
Context `{PyRuntime}.

(** The steps of a load that returns. *)
Lemma get_data_Ok (fs : gmap string data.file) (path : string)
  (df : DataFrame) (l : list log_record) :
data.get_data fs path = (Ok df, l) ->
exists df0 date date' df2 df3 df4 l2 l3 l4,
  (if data.endswith path ".parquet" then data.read_parquet fs path
   else data.read_csv fs path) = Ok df0 /\
  getitem df0 "date" = Ok date /\
  result_mapM data.to_datetime_cell date = Ok date' /\
  data.derive_bool "dep_delay_flag" "dep_delay_flag_bool"
    (data.setitem df0 "date" date') = (Ok df2, l2) /\
  data.derive_bool "arr_delay_flag" "arr_delay_flag_bool" df2 = (Ok df3, l3) /\
  data.derive_bool "on_time" "on_time_bool" df3 = (Ok df4, l4) /\
  df = data.dropna_all df4.
Proof.
unfold data.get_data. cbn [bind ret logger M_monad]. intros Hg.
apply M_bind_Ok in Hg as (df0 & ? & ? & Hread & Hg & _).
apply M_bind_Ok in Hg as (? & ? & ? & _ & Hg & _).
apply M_bind_Ok in Hg as (? & ? & ? & _ & Hg & _).
apply M_bind_Ok in Hg as (date & ? & ? & Hdate & Hg & _).
apply M_bind_Ok in Hg as (date' & ? & ? & Hconv & Hg & _).
apply M_bind_Ok in Hg as (df2 & l2 & ? & H2 & Hg & _).
apply M_bind_Ok in Hg as (df3 & l3 & ? & H3 & Hg & _).
apply M_bind_Ok in Hg as (df4 & l4 & ? & H4 & Hg & _).
apply M_bind_Ok in Hg as (? & ? & ? & _ & Hg & _).
injection Hg as <- _.
exists df0, date, date', df2, df3, df4, l2, l3, l4.
assert (Hlift : forall A (r : result A) a k,
  lift (m:=M) r = (Ok a, k) -> r = Ok a).
{ intros A [a'|e] a k; simpl; [now intros [= ->] | discriminate]. }
repeat split; try assumption.
- destruct (data.endswith path ".parquet"); eapply Hlift; eassumption.
- eapply Hlift; eassumption.
- eapply Hlift; eassumption.
Qed.

End loader.

(** ** The loader: what it raises *)

Lemma result_mapM_raise {A B} (f : A -> result B) (l : list A) (E : exn) :
  (forall x e, In x l -> f x = Raise e -> e = E) ->
  (exists x, In x l /\ f x = Raise E) ->
  result_mapM f l = Raise E.
Proof.
  induction l as [|x l IH]; intros Honly (y & Hy & Hraise); [destruct Hy|].
  simpl. destruct (f x) as [b|e] eqn:Hx.
  - simpl. rewrite IH; [reflexivity| |].
    + intros z e Hz. apply Honly. now right.
    + destruct Hy as [->|Hy]; [congruence|eauto].
  - simpl. f_equal. apply (Honly x); [now left|assumption].
Qed.

Lemma column_index_lookup (x : string) (cols : list string) (i : nat) :
  column_index x cols = Some i -> cols !! i = Some x.
Proof.
  revert i. induction cols as [|c cols IH]; simpl; intros i; [discriminate|].
  destruct (String.eqb c x) eqn:Hc.
  - intros [= <-]. apply String.eqb_eq in Hc. now subst.
  - destruct (column_index x cols) as [j|]; simpl; [|discriminate].
    intros [= <-]. now apply IH.
Qed.

Section reader.
Context `{PyRuntime}.

Lemma convert_record_cells (dts : list data.dtype) (k : nat)
  (rec : list string) (row : list cell) :
data.convert_record dts k rec = Ok row ->
forall j d, dts !! j = Some d ->
  data.convert d (data.field (k + j) rec) = Ok (cell_at j row).
Proof.
revert k row. induction dts as [|d0 dts IH]; simpl; intros k row Hc j d Hj;
  [discriminate|].
apply result_bind_Ok in Hc as (c & Hc0 & Hc).
apply result_bind_Ok in Hc as (cs & Hcs & [= <-]).
destruct j as [|j]; simpl in Hj.
- injection Hj as <-. now rewrite Nat.add_0_r.
- rewrite <- Nat.add_succ_comm. now apply (IH (S k) cs Hcs j d).
Qed.

(** A field that is read is of the kind of its column, or missing. *)
Lemma convert_kind (d : data.dtype) (s : string) (c : cell) :
data.convert d s = Ok c -> dtype_kind d c = true.
Proof.
unfold data.convert.
destruct (data.is_na_text s); [intros [= <-]; now destruct d|].
destruct d; [now intros [= <-]|].
assert (Hrt : result_bind (Int64_of_str s) (fun z => Ok (CInt z)) = Ok c ->
              dtype_kind data.dt_Int64 c = true).
{ destruct (Int64_of_str s); simpl; [now intros [= <-]|discriminate]. }
destruct (data.int_of_text s) as [z|]; [|exact Hrt].
destruct (data.in_int64 z); [now intros [= <-]|exact Hrt].
Qed.

(** What [read_csv] returns holds, in each declared column, cells of the
  declared kind. *)
Lemma read_csv_typed (fs : gmap string data.file) (path : string)
  (df0 : DataFrame) (col : string) (d : data.dtype) :
data.read_csv fs path = Ok df0 ->
data.lookup_dtype col data.type_mapping = Some d ->
column_holds (dtype_kind d) col df0.
Proof.
unfold data.read_csv. intros Hread Hd.
destruct (fs !! path) as [f|]; [|discriminate].
destruct (data.infers_compression path); [discriminate|].
destruct f as [header records0|?]; [|discriminate].
apply result_bind_Ok in Hread as (records & _ & Hread).
apply result_bind_Ok in Hread as (rs & Hrs & [= <-]).
intros row c Hrow Hc. unfold value_of in Hc. simpl in Hc, Hrow.
destruct (column_index col header) as [i|] eqn:Hidx; [|discriminate].
injection Hc as <-.
assert (Hdt : imap (fun i col => data.column_dtype col i records) header !! i
              = Some d).
{ rewrite list_lookup_imap, (column_index_lookup _ _ _ Hidx). simpl.
  unfold data.column_dtype. now rewrite Hd. }
apply result_mapM_Ok in Hrs.
induction Hrs as [|rec row' records' rs' Hrec _ IH]; [destruct Hrow|].
destruct Hrow as [->|Hrow]; [|exact (IH Hrow)].
pose proof (convert_record_cells _ _ _ _ Hrec i _ Hdt) as Hc.
eapply convert_kind. exact Hc.
Qed.
End reader.


(** ** A dimension that raises *)

Section absent.
Context `{PyRuntime}.


End absent.


(** ** The claims *)

Section claims.
Context `{PyRuntime}.

(** C1, as amended. When every multi-select list names the sentinel
    ["all"], the distance and date bounds are the minimum and maximum of
    the frame, and no row of the frame lacks a distance or a date,
    [filter_data] returns the frame it was given, row for row. *)
Theorem unconstrained_filter_returns_input t filters :
  unconstrained filters ->
  bounds_of_data t filters ->
  complete_ranges t ->
  fst (filter_data t filters) = Ok t.
Proof.
  intros Hu Hb Hc. eapply filter_data_run.
  - unfold selection. cbn [bind M_monad].
    rewrite (dimensions_unconstrained _ _ Hu). cbn [M_bind].
    rewrite (distance_range_identity _ _ Hb Hc). reflexivity.
  - apply (date_range_identity _ _ Hb Hc).
Qed.


(** C2, as amended. The loader fails with [FileNotFoundError] when the
    input file is missing, and with [ValueError] when a delimited file is
    read and a row of it has a date that is present and does not parse as
    [YYYY-MM-DD] - the load fails as a whole, the row is not skipped.  No
    extension is refused as unsupported: every path that does not end in
    [.parquet] goes to [read_csv], so two such paths with the same content
    load the same, unless [read_csv] infers a compression from the path
    ([.gz], [.bz2], [.zip], [.xz], [.zst], [.tar]): opening a file that is
    not compressed then fails. *)
Theorem loader_failures (fs : gmap string data.file) (path : string) :
  (fs !! path = None ->
   fst (data.get_data fs path) = Raise FileNotFoundError) /\
  (forall df0 date s,
     data.endswith path ".parquet" = false ->
     data.read_csv fs path = Ok df0 ->
     getitem df0 "date" = Ok date ->
     In (CStr s) date ->
     strptime_ymd s = None ->
     fst (data.get_data fs path) = Raise ValueError) /\
  (forall fs' path',
     data.endswith path ".parquet" = false ->
     data.endswith path' ".parquet" = false ->
     data.infers_compression path = false ->
     data.infers_compression path' = false ->
     fs' !! path' = fs !! path ->
     data.get_data fs' path' = data.get_data fs path) /\
  (data.endswith path ".parquet" = false ->
   data.infers_compression path = true ->
   is_Some (fs !! path) ->
   fst (data.get_data fs path) = Raise (decompression_error path)).
Proof.
  split; [|split; [|split]].
  - intros Hnone. unfold data.get_data, data.read_parquet, data.read_csv.
    rewrite Hnone. now destruct (data.endswith path ".parquet").
  - intros df0 date s Hext Hread Hdate Hin Hbad.
    unfold data.get_data. rewrite Hext, Hread.
    cbn [bind ret logger lift M_monad M_bind M_ret M_log app].
    rewrite Hdate. cbn [bind ret logger lift M_monad M_bind M_ret M_log app].
    rewrite (result_mapM_raise data.to_datetime_cell _ ValueError).
    + reflexivity.
    + intros c e Hc.
      assert (Hkind : str_kind c = true).
      { unfold getitem in Hdate.
        destruct (column_index "date" (columns df0)) as [i|] eqn:Hidx;
          [|discriminate].
        injection Hdate as <-. apply in_map_iff in Hc as (r & <- & Hr).
        apply (read_csv_typed fs path df0 "date" data.dt_str Hread eq_refl
                 r _ Hr).
        unfold value_of. now rewrite Hidx. }
      destruct c as [| |s0| |]; try discriminate Hkind; simpl;
        [intros [=]|].
      destruct (strptime_ymd s0); [intros [=]|congruence].
    + exists (CStr s). split; [exact Hin|]. simpl. now rewrite Hbad.
  - intros fs' path' Hext Hext' Hc Hc' Hsame.
    unfold data.get_data, data.read_csv.
    now rewrite Hext, Hext', Hc, Hc', Hsame.
  - intros Hext Hc [f Hf]. unfold data.get_data, data.read_csv.
    now rewrite Hext, Hf, Hc.
Qed.



(** C7. When the filtered frame has no rows, every consumer returns its
    "no data" value and raises nothing: the five cards read ["No Data"],
    the table is empty with its "no data" title, each of the six charts is
    the empty figure with an empty error text, and the row counter
    reports zero - no rate is computed, so nothing divides by zero. *)
Theorem empty_result_reports_no_data `{Rendering}
    (fs : gmap string data.file) (kwargs : gmap string pyval)
    (df0 df : DataFrame) (l0 l1 : list log_record) :
  data.get_data_default fs = (Ok df0, l0) ->
  filter_data df0 kwargs = (Ok df, l1) ->
  len df = 0%nat ->
  fst (data_cards.update fs kwargs) = Ok data_cards.no_data /\
  fst (data_table.update fs kwargs) = Ok data_table.no_data /\
  (forall update, In update chart_callbacks ->
     fst (update fs kwargs) = Ok (chart.empty_fig, "")) /\
  fst (display_count fs kwargs) = Ok (0%nat, len df0).
Proof.
  intros Hload Hfilter Hlen. repeat split.
  - unfold data_cards.update, data_cards.cards.
    cbn [bind ret try_except logger M_monad M_bind M_log].
    rewrite Hload. cbn [M_bind]. rewrite Hfilter. cbn [M_bind M_log].
    now rewrite Hlen.
  - unfold data_table.update.
    cbn [bind ret try_except logger M_monad M_bind M_log].
    rewrite Hload. cbn [M_bind]. rewrite Hfilter. cbn [M_bind M_log].
    now rewrite Hlen.
  - intros update Hin.
    assert (Hchart : forall name,
      fst (chart.update name fs kwargs) = Ok (chart.empty_fig, "")).
    { intros name. unfold chart.update.
      cbn [bind ret try_except M_monad]. rewrite Hload. cbn [M_bind].
      rewrite Hfilter. cbn [M_bind]. now rewrite Hlen. }
    simpl in Hin.
    repeat destruct Hin as [<-|Hin]; try destruct Hin; apply Hchart.
  - unfold display_count. cbn [bind ret M_monad]. rewrite Hload.
    cbn [M_bind]. rewrite Hfilter. simpl. unfold len in *. now rewrite Hlen.
Qed.

(** C8. Filtering is idempotent: when [filter_data(t, F)] returns a frame,
    filtering that frame again with [F] returns it unchanged, row for
    row. *)
Theorem filter_data_idempotent t filters t' :
  fst (filter_data t filters) = Ok t' ->
  fst (filter_data t' filters) = Ok t'.
Proof.
  destruct (filter_data t filters) as [r l] eqn:Hf. simpl. intros ->.
  apply filter_data_Ok in Hf as (T & l1 & l2 & Hsel & Hdate & _).
  destruct (selection_plain _ _ _ _ Hsel) as (Hc1 & Hi1 & Hst1).
  destruct (date_range_dated _ _ _ _ Hdate) as (Hc2 & Hi2 & Hb2 & Hst2).
  destruct (Hst1 t' (eq_trans Hc2 Hc1) Hi2) as [k1 Hk1].
  destruct (Hst2 t' Hc2 (incl_refl _) Hb2) as [k2 Hk2].
  eapply filter_data_run; eassumption.
Qed.

(** C9. [filter_data] does not touch its input.  Called on a reference
    to a frame, it leaves every object of the store as it was, the
    caller's frame among them, and what it returns is a reference to a new
    object, which holds the frame that [filter_data] computes on values;
    it logs and raises the same as on values. *)
Theorem filter_data_leaves_input (h : Store.store) (r : nat) (t : DataFrame)
    (filters : gmap string pyval) :
  nth_error h r = Some t ->
  match Store.filter_data r filters h with
  | (res, l, h') =>
      (forall r0 t0, nth_error h r0 = Some t0 -> nth_error h' r0 = Some t0) /\
      match res with
      | Ok r' =>
          r' <> r /\ nth_error h r' = None /\
          exists t', nth_error h' r' = Some t' /\
                     filter_data t filters = (Ok t', l)
      | Raise e => filter_data t filters = (Raise e, l)
      end
  end.
Proof.
  intros Hr. pose proof (sim_filter_data filters h r t Hr) as Hsim.
  unfold simulates in Hsim.
  destruct (Store.filter_data r filters h) as [[res l] h'].
  destruct Hsim as (Hext & -> & Hres). split.
  - intros r0 t0. now apply extends_nth_error.
  - destruct (filter_data t filters) as [[t'|e'] l']; simpl in *;
      destruct res as [r'|e]; try contradiction.
    + destruct Hres as [Hr' Hlen].
      assert (r < length h)%nat by (apply nth_error_Some; congruence).
      split; [lia|]. split; [now apply nth_error_None|]. eauto.
    + now subst.
Qed.

(** C10. When the frame has a distance column, every row of the frame
    [filter_data] returns has a distance: the rows whose distance is
    missing are dropped by the range comparison, whatever the bounds. *)
Theorem missing_distance_excluded t filters t' row :
  fst (filter_data t filters) = Ok t' ->
  has_column t "distance" = true ->
  In row (rows t') ->
  exists c, value_of t' "distance" row = Some c /\ is_na c = false.
Proof.
  destruct (filter_data t filters) as [r l] eqn:Hf. simpl. intros -> Hcol Hrow.
  apply filter_data_Ok in Hf as (T & l1 & l2 & Hsel & Hdate & _).
  destruct (selection_plain _ _ _ _ Hsel) as (Hc1 & _ & _).
  destruct (date_range_dated _ _ _ _ Hdate) as (Hc2 & Hi2 & _).
  apply has_column_index in Hcol as [i Hidx].
  exists (cell_at i row). split.
  - unfold value_of. now rewrite Hc2, Hc1, Hidx.
  - eapply selection_present; eauto.
Qed.
End claims.

(** ** Concrete inputs *)

Module examples.
Import example_runtime.

Lemma sentinel_filters_unconstrained : unconstrained sentinel_filters.
Proof.
  intros key Hkey. simpl in Hkey.
  repeat destruct Hkey as [<-|Hkey]; try destruct Hkey;
    eexists; (split; [vm_compute; reflexivity | simpl; tauto]).
Qed.

Lemma sentinel_filters_bounds (t : DataFrame) :
  columns t = ["year"; "distance"; "date"] ->
  forall distance date,
    getitem t "distance" = Ok distance -> getitem t "date" = Ok date ->
    series_min distance = Ok (NumInt 500) ->
    series_max distance = Ok (NumInt 500) ->
    date_min date = Some 19000 -> date_max date = Some 19001 ->
    bounds_of_data t sentinel_filters.
Proof.
  intros _ distance date Hd Hdt Hlo Hhi Hfirst Hlast.
  exists distance, date, 500, 500, (PStr "2022-01-08"), (PStr "2022-01-09"),
    19000, 19001.
  repeat split; try assumption; try (vm_compute; reflexivity);
    discriminate.
Qed.

(** C1, counterexample. Every multi-select list names ["all"] and the
    bounds are the extremes of the frame, yet the flight whose distance is
    missing is dropped, and so is the flight whose date is missing. *)
Lemma unconstrained_filter_drops_missing_distance :
  unconstrained sentinel_filters /\
  (bounds_of_data missing_distance sentinel_filters /\
   fst (filter_data missing_distance sentinel_filters)
   = Ok {| columns := ["year"; "distance"; "date"];
           rows := [[CInt 2022; CInt 500; CDate 19000]] |} /\
   fst (filter_data missing_distance sentinel_filters)
   <> Ok missing_distance) /\
  (bounds_of_data missing_date sentinel_filters /\
   fst (filter_data missing_date sentinel_filters)
   = Ok {| columns := ["year"; "distance"; "date"];
           rows := [[CInt 2022; CInt 500; CDate 19000];
                    [CInt 2022; CInt 500; CDate 19001]] |} /\
   fst (filter_data missing_date sentinel_filters) <> Ok missing_date).
Proof.
  split; [exact sentinel_filters_unconstrained|].
  split; (split; [eapply sentinel_filters_bounds; reflexivity|]);
    (split; [vm_compute; reflexivity|]); vm_compute; discriminate.
Qed.

Lemma unconstrained_filter_returns_input_witness :
  fst (filter_data complete_flights sentinel_filters) = Ok complete_flights.
Proof.
  apply (unconstrained_filter_returns_input complete_flights sentinel_filters).
  - exact sentinel_filters_unconstrained.
  - eapply sentinel_filters_bounds; reflexivity.
  - intros row Hrow. simpl in Hrow.
    repeat destruct Hrow as [<-|Hrow]; try destruct Hrow;
      (split; eexists; reflexivity).
Defined.

Lemma filter_data_idempotent_witness :
  fst (filter_data first_flight_only year_2022) = Ok first_flight_only.
Proof.
  apply (filter_data_idempotent two_flights year_2022 first_flight_only).
  vm_compute. reflexivity.
Defined.

Lemma missing_distance_excluded_witness :
  fst (filter_data missing_distance sentinel_filters)
  = Ok {| columns := ["year"; "distance"; "date"];
          rows := [[CInt 2022; CInt 500; CDate 19000]] |} /\
  exists c,
    value_of {| columns := ["year"; "distance"; "date"];
                rows := [[CInt 2022; CInt 500; CDate 19000]] |}
      "distance" [CInt 2022; CInt 500; CDate 19000] = Some c /\
    is_na c = false.
Proof.
  split; [vm_compute; reflexivity|].
  apply (missing_distance_excluded missing_distance sentinel_filters
           {| columns := ["year"; "distance"; "date"];
              rows := [[CInt 2022; CInt 500; CDate 19000]] |}
           [CInt 2022; CInt 500; CDate 19000]).
  - vm_compute. reflexivity.
  - reflexivity.
  - simpl. auto.
Defined.




Lemma filter_data_leaves_input_witness :
  match Store.filter_data 0 year_2022 [two_flights] with
  | (res, l, h') =>
      (forall r0 t0, nth_error [two_flights] r0 = Some t0 ->
         nth_error h' r0 = Some t0) /\
      match res with
      | Ok r' =>
          r' <> 0%nat /\ nth_error [two_flights] r' = None /\
          exists t', nth_error h' r' = Some t' /\
                     filter_data two_flights year_2022 = (Ok t', l)
      | Raise e => filter_data two_flights year_2022 = (Raise e, l)
      end
  end.
Proof.
  apply (filter_data_leaves_input [two_flights] 0 two_flights year_2022).
  reflexivity.
Defined.
(** C5, as amended. On the two-row table of the scenario, [filter_data]
    with the year selected as the integer 2022 (the value the year
    dropdown supplies), airline ["all"], the other dimensions ["all"],
    distance bounds 0 and 1000 and no date bound returns exactly the first
    row; the on-time rate of the data cards over that result is 100, and
    the cards computed from the same two flights loaded from a file show
    it as ["{:.1f}%"] of 100. *)
Theorem scenario_year_2022 :
  fst (filter_data two_flights year_2022) = Ok first_flight_only /\
  data_cards.on_time_rate first_flight_only = Ok (FNum (inject_Z 100)) /\
  exists total delay distance longest,
    fst (data_cards.update {["data/data.csv" := flights_file]} year_2022)
    = Ok [total; delay;
          data_cards.Formatted "{:.1f}%" (NumFloat (FNum (inject_Z 100)));
          distance; longest].
Proof.
  split; [vm_compute; reflexivity|].
  split; [vm_compute; reflexivity|].
  do 4 eexists. vm_compute. reflexivity.
Qed.

(** C5, counterexample. With the year given as the string ["2022"], as the
    scenario writes it, no row is selected: the year column holds integers
    and an integer never equals a string.  The cards then read
    ["No Data"].  With only the four keys the scenario lists, [filter_data]
    raises [KeyError] at the first dimension that is not among them. *)
Lemma scenario_string_year_selects_nothing :
  fst (filter_data two_flights
         (bag (PList [PStr "2022"]) all (PInt 0) (PInt 1000) PNone PNone))
  = Ok {| columns := columns two_flights; rows := [] |} /\
  fst (data_cards.update {["data/data.csv" := flights_file]}
         (bag (PList [PStr "2022"]) all (PInt 0) (PInt 1000) PNone PNone))
  = Ok data_cards.no_data /\
  fst (filter_data two_flights
         (<["year" := PList [PStr "2022"]]> (<["airline" := all]>
          (<["flight_distance_min" := PInt 0]>
           (<["flight_distance_max" := PInt 1000]> ∅)))))
  = Raise (KeyError "destination_airport").
Proof. repeat split; vm_compute; reflexivity. Qed.

Lemma empty_result_reports_no_data_witness :
  exists df0 : DataFrame,
  fst (data_cards.update {["data/data.csv" := flights_file]}
         (<["year" := PList [PInt 1999]]> year_2022))
  = Ok data_cards.no_data /\
  fst (data_table.update {["data/data.csv" := flights_file]}
         (<["year" := PList [PInt 1999]]> year_2022))
  = Ok data_table.no_data /\
  (forall update, In update chart_callbacks ->
     fst (update {["data/data.csv" := flights_file]}
            (<["year" := PList [PInt 1999]]> year_2022))
     = Ok (chart.empty_fig, "")) /\
  fst (display_count {["data/data.csv" := flights_file]}
         (<["year" := PList [PInt 1999]]> year_2022))
  = Ok (0%nat, len df0).
Proof.
  eexists.
  eapply (empty_result_reports_no_data
            {["data/data.csv" := flights_file]}
            (<["year" := PList [PInt 1999]]> year_2022)).
  - vm_compute. reflexivity.
  - vm_compute. reflexivity.
  - reflexivity.
Defined.
(** C2, counterexample. A delimited file with the extension [.xlsx] is
    loaded, not refused. *)
Lemma unsupported_extension_is_loaded :
  is_Ok (fst (data.get_data {["data/flights.xlsx" := flags_file]}
                "data/flights.xlsx")).
Proof. eexists. vm_compute. reflexivity. Qed.

Lemma loader_failures_witness :
  fst (data.get_data ∅ "data/data.csv") = Raise FileNotFoundError /\
  fst (data.get_data {["data/data.csv" := bad_date_file]} "data/data.csv")
  = Raise ValueError /\
  data.get_data {["data/flights.xlsx" := flags_file]} "data/flights.xlsx"
  = data.get_data {["data/data.csv" := flags_file]} "data/data.csv" /\
  fst (data.get_data {["data/data.csv.gz" := flags_file]}
         "data/data.csv.gz")
  = Raise (decompression_error "data/data.csv.gz").
Proof.
  split; [|split; [|split]].
  - apply (proj1 (loader_failures ∅ "data/data.csv")). reflexivity.
  - eapply (proj1 (proj2 (loader_failures
              {["data/data.csv" := bad_date_file]} "data/data.csv"))
             _ _ "22 March 2022").
    + reflexivity.
    + vm_compute. reflexivity.
    + vm_compute. reflexivity.
    + simpl. auto.
    + reflexivity.
  - apply (proj1 (proj2 (proj2 (loader_failures
              {["data/data.csv" := flags_file]} "data/data.csv")))).
    + reflexivity.
    + reflexivity.
    + reflexivity.
    + reflexivity.
    + reflexivity.
  - apply (proj2 (proj2 (proj2 (loader_failures
              {["data/data.csv.gz" := flags_file]} "data/data.csv.gz")))).
    + reflexivity.
    + reflexivity.
    + eexists. reflexivity.
Defined.


End examples.


(** * Further properties

    ** The pipeline keeps the order of the rows *)

Lemma keep_keep (p q : list cell -> bool) (df : DataFrame) :
  keep q (keep p df) = keep (fun r => p r && q r) df.
Proof.
  unfold keep. simpl. f_equal.
  induction (rows df) as [|r l IH]; simpl; [reflexivity|].
  destruct (p r); simpl; [|exact IH]. destruct (q r); now rewrite IH.
Qed.


Lemma keep_true (df : DataFrame) : keep (fun _ => true) df = df.
Proof. apply keep_all. apply List.Forall_forall. reflexivity. Qed.

Lemma keep_sublist (p : list cell -> bool) (df : DataFrame) :
  rows (keep p df) `sublist_of` rows df.
Proof.
  simpl. induction (rows df) as [|r l IH]; simpl; [constructor|].
  destruct (p r); now constructor.
Qed.

Lemma decided_keep (d : result (option (list cell -> result bool)))
    (df df' : DataFrame) :
  decided d df = Ok df' -> exists p, df' = keep p df.
Proof.
  unfold decided. destruct d as [[f|]|e]; simpl; [| |discriminate].
  - intros Hr. apply rowwise_Ok in Hr as [-> _]. eauto.
  - intros [= <-]. exists (fun _ => true). now rewrite keep_true.
Qed.

Lemma selects_rows_bind (s1 s2 : DataFrame -> M DataFrame) :
  selects_rows s1 -> selects_rows s2 ->
  selects_rows (fun df => M_bind (s1 df) s2).
Proof.
  intros S1 S2 df df' l Hb.
  apply M_bind_Ok in Hb as (d1 & l1 & l2 & H1 & H2 & _).
  destruct (S1 _ _ _ H1) as [p ->]. destruct (S2 _ _ _ H2) as [q ->].
  rewrite keep_keep. eauto.
Qed.

Section order.
Context `{PyRuntime}.

Lemma multi_select_selects key col filters :
selects_rows (filter_component.multi_select key col filters).
Proof.
intros df df' l. rewrite multi_select_value. intros [= Hd _].
eapply decided_keep; eassumption.
Qed.

Lemma distance_bound_selects ge key filters :
selects_rows (filter_component.distance_bound ge key filters).
Proof.
intros df df' l. rewrite distance_bound_value. intros [= Hd _].
eapply decided_keep; eassumption.
Qed.

Lemma date_bound_selects ge key warning filters :
selects_rows (filter_component.date_bound ge key warning filters).
Proof.
intros df df' l. rewrite date_bound_value. unfold date_bound_outcome.
destruct (filters !! key) as [v|]; [|discriminate].
assert (Hskip : forall l0, (Ok df, l0) = (Ok df', l) ->
  exists p, df' = keep p df).
{ intros l0 [= <- _]. exists (fun _ => true). now rewrite keep_true. }
assert (Hatt : forall A (p : result A) (g : A -> option Z) d,
  result_bind p (fun b => decided (date_decision ge (g b) (columns df)) df)
  = Ok d -> exists q, d = keep q df).
{ intros A [a|e] g d; simpl; [|discriminate]. apply decided_keep. }
assert (Hv :
  match result_bind (pd_to_datetime v) (fun b =>
          decided (date_decision ge b (columns df)) df) with
  | Ok d => (Ok d, [])
  | Raise e =>
      if filter_component.value_or_type_error e then
        match result_bind (fromisoformat v) (fun b =>
                decided (date_decision ge (Some b) (columns df)) df) with
        | Ok d => (Ok d, [])
        | Raise e' =>
            if filter_component.value_or_type_error e'
            then (Ok df, [mkLog WARNING warning])
            else (Raise e', [])
        end
      else (Raise e, [])
  end = (Ok df', l) -> exists p, df' = keep p df).
{ destruct (result_bind (pd_to_datetime v) _) as [d|e] eqn:H1.
  - intros [= <- _]. eapply (Hatt _ _ (fun b => b)). exact H1.
  - destruct (filter_component.value_or_type_error e); [|discriminate].
    destruct (result_bind (fromisoformat v) _) as [d|e'] eqn:H2.
    + intros [= <- _]. eapply (Hatt _ _ Some). exact H2.
    + destruct (filter_component.value_or_type_error e'); [|discriminate].
      apply Hskip. }
destruct v; try exact Hv. apply Hskip.
Qed.

Lemma filter_data_keep t filters t' :
fst (filter_data t filters) = Ok t' -> exists p, t' = keep p t.
Proof.
destruct (filter_data t filters) as [r l] eqn:Hf. simpl. intros ->.
apply filter_data_Ok in Hf as (T & l1 & l2 & Hsel & Hdate & _).
assert (Ssel : selects_rows (selection filters)).
{ unfold selection, dimensions, distance_range. cbn [bind ret M_monad].
  apply selects_rows_bind.
  - repeat (apply selects_rows_bind; [apply multi_select_selects|]).
    apply multi_select_selects.
  - intros df df' l0. destruct (has_column df "distance").
    + apply (selects_rows_bind _ _ (distance_bound_selects _ _ _)
               (distance_bound_selects _ _ _)).
    + intros [= <- _]. exists (fun _ => true). now rewrite keep_true. }
assert (Sdate : selects_rows (date_range filters)).
{ unfold date_range. cbn [bind M_monad].
  apply selects_rows_bind; apply date_bound_selects. }
destruct (Ssel _ _ _ Hsel) as [p ->]. destruct (Sdate _ _ _ Hdate) as [q ->].
rewrite keep_keep. eauto.
Qed.

(** X1. What [filter_data] returns has the columns of its input, and its
  rows are rows of the input in their original order: nothing is added,
  reordered or repeated, so it never has more rows than the input. *)
Theorem filter_data_keeps_order t filters t' :
fst (filter_data t filters) = Ok t' ->
columns t' = columns t /\
rows t' `sublist_of` rows t /\
(len t' <= len t)%nat.
Proof.
intros Hok. apply filter_data_keep in Hok as [p ->].
split; [reflexivity|]. split; [apply keep_sublist|].
unfold len. apply sublist_length, keep_sublist.
Qed.
End order.

(** ** What the pipeline selects *)

Lemma cell_of_index (df : DataFrame) (col : string) (i : nat) (row : list cell) :
  column_index col (columns df) = Some i -> cell_of df col row = cell_at i row.
Proof. unfold cell_of, value_of. now intros ->. Qed.



Section selected.
Context `{PyRuntime}.



End selected.


Section characterisation.
Context `{PyRuntime}.





End characterisation.

(** ** Calls that compose, keywords that are read *)


Section composition.
Context `{PyRuntime}.




(** X4. What [filter_data] returns or raises depends on eleven keywords and
  on nothing else: two keyword bags that agree on them give the same
  frame or the same exception, whatever else they hold.  (The debug record
  of line 239 prints the whole bag.) *)
Theorem filter_data_reads_its_keys (t : DataFrame)
  (F G : gmap string pyval) :
(forall key, In key filter_keys -> F !! key = G !! key) ->
fst (filter_data t F) = fst (filter_data t G).
Proof.
intros Hsame. f_equal. apply filter_data_ext.
- intros key col cols Hin. unfold multi_select_decision.
  rewrite (Hsame key); [reflexivity|].
  unfold filter_keys, multi_select_keys. rewrite in_app_iff. left.
  now apply (in_map fst) in Hin.
- intros key Hin. apply Hsame. unfold filter_keys. rewrite in_app_iff.
  simpl in *. tauto.
- intros key Hin. apply Hsame. unfold filter_keys. rewrite in_app_iff.
  simpl in *. tauto.
Qed.
End composition.

(** ** What a loaded frame holds *)

Lemma In_zip_with {A B C} (f : A -> B -> C) (l : list A) (s : list B) (z : C) :
  In z (data.zip_with f l s) -> exists x y, In x l /\ In y s /\ z = f x y.
Proof.
  revert s. induction l as [|x l IH]; intros [|y s]; simpl; try tauto.
  intros [<-|Hz]; [exists x, y; auto|].
  destruct (IH s Hz) as (x' & y' & ? & ? & ?). exists x', y'. auto.
Qed.

Lemma column_index_app_None (x col : string) (cols : list string) :
  x <> col -> column_index x cols = None ->
  column_index x (cols ++ [col]) = None.
Proof.
  intros Hne. induction cols as [|c cols IH]; simpl.
  - intros _. destruct (String.eqb col x) eqn:E; [|reflexivity].
    apply String.eqb_eq in E. congruence.
  - destruct (String.eqb c x); [discriminate|].
    destruct (column_index x cols); simpl; [discriminate|].
    intros _. now rewrite IH.
Qed.

Lemma setitem_has_column (df : DataFrame) (col x : string) (s : list cell) :
  has_column (data.setitem df col s) x
  = has_column df x || String.eqb x col.
Proof.
  unfold has_column, data.setitem.
  destruct (column_index col (columns df)) as [i|] eqn:Hcol; simpl.
  - destruct (String.eqb x col) eqn:E.
    + apply String.eqb_eq in E. subst. rewrite Hcol. reflexivity.
    + now rewrite orb_false_r.
  - destruct (column_index x (columns df)) as [j|] eqn:Hx.
    + now rewrite (column_index_app _ _ [col] _ Hx).
    + destruct (String.eqb x col) eqn:E.
      * apply String.eqb_eq in E. subst. now rewrite column_index_new.
      * apply String.eqb_neq in E. now rewrite column_index_app_None.
Qed.


Lemma setitem_column_other (P : cell -> bool) (df : DataFrame) (col x : string)
    (s : list cell) :
  x <> col -> column_holds P x df -> column_holds P x (data.setitem df col s).
Proof.
  intros Hne Hdf row' c Hrow Hc. rewrite setitem_rows in Hrow.
  apply In_zip_with in Hrow as (row & c' & Hin & _ & ->).
  destruct (value_of df x row) as [v|] eqn:Hv.
  - rewrite (setitem_value_other df col x s row c' v Hne Hv) in Hc.
    injection Hc as <-. exact (Hdf row v Hin Hv).
  - exfalso. assert (Hhas : has_column (data.setitem df col s) x = false).
    { rewrite setitem_has_column. apply String.eqb_neq in Hne. rewrite Hne.
      unfold has_column. unfold value_of in Hv.
      destruct (column_index x (columns df)); [discriminate|reflexivity]. }
    unfold has_column in Hhas. unfold value_of in Hc.
    destruct (column_index x (columns (data.setitem df col s))); discriminate.
Qed.

Lemma dropna_column (P : cell -> bool) (x : string) (df : DataFrame) :
  column_holds P x df -> column_holds P x (data.dropna_all df).
Proof.
  intros Hdf row c Hrow Hc. apply filter_In in Hrow as [Hrow _].
  exact (Hdf row c Hrow Hc).
Qed.

Lemma derive_bool_column (P : cell -> bool) flag new x (df df' : DataFrame)
    (l : list log_record) :
  x <> new -> data.derive_bool flag new df = (Ok df', l) ->
  column_holds P x df -> column_holds P x df'.
Proof.
  intros Hne Hd Hdf. apply derive_bool_Ok in Hd as (i & _ & ->).
  now apply setitem_column_other.
Qed.



Section loaded.
Context `{PyRuntime}.


End loaded.

Lemma int_kind_numeric (df : DataFrame) :
  column_holds int_kind "distance" df -> numeric_distance df.
Proof.
  intros Hd row c Hrow Hc. specialize (Hd row c Hrow Hc).
  destruct c; try discriminate; eexists; reflexivity.
Qed.

Section loaded_text.
Context `{PyRuntime}.

(** X6. In a frame loaded from a delimited file every column the type
  mapping declares holds cells of its declared kind or missing cells
  (integers for [Int64], texts for [str]; the date column apart, which is
  converted), so the distance column can be compared with a number. *)
Theorem loaded_text_columns (fs : gmap string data.file) (path : string)
  (df : DataFrame) (l : list log_record) :
data.endswith path ".parquet" = false ->
data.get_data fs path = (Ok df, l) ->
(forall col d, data.lookup_dtype col data.type_mapping = Some d ->
   col <> "date" -> column_holds (dtype_kind d) col df) /\
numeric_distance df.
Proof.
intros Hext Hg.
apply get_data_Ok in Hg
  as (df0 & date & date' & df2 & df3 & df4 & l2 & l3 & l4
      & Hread & Hdate & Hconv & H2 & H3 & H4 & ->).
rewrite Hext in Hread.
assert (Hall : forall col d,
          data.lookup_dtype col data.type_mapping = Some d ->
          col <> "date" ->
          column_holds (dtype_kind d) col (data.dropna_all df4)).
{ intros col d Hd Hne. apply dropna_column.
  assert (Hnew : forall new, In new (map snd flag_columns) -> col <> new).
  { intros new Hin ->. simpl in Hin.
    repeat destruct Hin as [<-|Hin]; try destruct Hin; discriminate. }
  eapply derive_bool_column; [|exact H4|]; [apply Hnew; simpl; tauto|].
  eapply derive_bool_column; [|exact H3|]; [apply Hnew; simpl; tauto|].
  eapply derive_bool_column; [|exact H2|]; [apply Hnew; simpl; tauto|].
  apply setitem_column_other; [exact Hne|].
  eapply read_csv_typed; eassumption. }
split; [exact Hall|].
apply int_kind_numeric. apply (Hall "distance" data.dt_Int64);
  [reflexivity|discriminate].
Qed.
End loaded_text.

Lemma getitem_missing (df : DataFrame) (col : string) :
  has_column df col = false -> getitem df col = Raise (KeyError col).
Proof.
  unfold has_column, getitem.
  destruct (column_index col (columns df)); [discriminate|reflexivity].
Qed.

Lemma getitem_present (df : DataFrame) (col : string) :
  has_column df col = true -> exists s, getitem df col = Ok s.
Proof.
  unfold has_column, getitem.
  destruct (column_index col (columns df)); [eauto|discriminate].
Qed.

Lemma derive_bool_missing flag new (df : DataFrame) :
  has_column df flag = false ->
  data.derive_bool flag new df = (Raise (KeyError flag), []).
Proof.
  intros Hm. unfold data.derive_bool. cbn [bind ret M_monad].
  now rewrite (getitem_missing df flag Hm).
Qed.

Lemma derive_bool_present flag new (df : DataFrame) :
  has_column df flag = true ->
  exists s, data.derive_bool flag new df = (Ok (data.setitem df new s), []).
Proof.
  intros Hp. unfold data.derive_bool. cbn [bind ret M_monad].
  destruct (getitem_present df flag Hp) as [s ->]. simpl. eauto.
Qed.

Section missing_columns.
Context `{PyRuntime}.

(** X7. A file that is read but lacks the date column or one of the three
  flag columns is not loaded: [get_data] raises [KeyError] for the first of
  them that is missing, after its first two debug records. *)
Theorem loader_missing_column (fs : gmap string data.file) (path : string)
  (df0 : DataFrame) (col : string) :
(if data.endswith path ".parquet" then data.read_parquet fs path
 else data.read_csv fs path) = Ok df0 ->
find (fun c => negb (has_column df0 c)) required_columns = Some col ->
(forall date, getitem df0 "date" = Ok date ->
   is_Ok (result_mapM data.to_datetime_cell date)) ->
data.get_data fs path
= (Raise (KeyError col),
   [mkLog DEBUG "Data loaded. Shape: %s"; mkLog DEBUG "Sample data:\n%s"]).
Proof.
intros Hread Hfind Hdates. unfold data.get_data.
cbn [bind ret logger M_monad].
assert (Hr : (if data.endswith path ".parquet"
              then lift (m:=M) (data.read_parquet fs path)
              else lift (data.read_csv fs path)) = (Ok df0, [])).
{ destruct (data.endswith path ".parquet"); now rewrite Hread. }
rewrite Hr. cbn [M_bind M_log app]. clear Hr.
unfold required_columns in Hfind. simpl in Hfind.
destruct (has_column df0 "date") eqn:Hd; simpl in Hfind.
2:{ injection Hfind as <-. now rewrite (getitem_missing df0 "date" Hd). }
destruct (getitem_present df0 "date" Hd) as [date Hdate].
destruct (Hdates date Hdate) as [date' Hconv].
rewrite Hdate. cbn [lift ret M_monad M_bind M_ret M_raise app].
rewrite Hconv. cbn [lift ret M_monad M_bind M_ret M_raise app].
set (df1 := data.setitem df0 "date" date').
assert (H1 : forall x, x <> "date" -> has_column df1 x = has_column df0 x).
{ intros x Hx. unfold df1. rewrite setitem_has_column.
  apply String.eqb_neq in Hx. now rewrite Hx, orb_false_r. }
destruct (has_column df0 "dep_delay_flag") eqn:Hf1; simpl in Hfind.
2:{ injection Hfind as <-.
    rewrite derive_bool_missing; [reflexivity|].
    now rewrite H1 by discriminate. }
destruct (derive_bool_present "dep_delay_flag" "dep_delay_flag_bool" df1)
  as [s1 ->]; [now rewrite H1 by discriminate|].
cbn [lift ret M_monad M_bind M_ret M_raise app].
destruct (has_column df0 "arr_delay_flag") eqn:Hf2; simpl in Hfind.
2:{ injection Hfind as <-.
    rewrite derive_bool_missing; [reflexivity|].
    rewrite setitem_has_column, H1 by discriminate. now rewrite Hf2. }
destruct (derive_bool_present "arr_delay_flag" "arr_delay_flag_bool"
            (data.setitem df1 "dep_delay_flag_bool" s1)) as [s2 ->].
{ rewrite setitem_has_column, H1 by discriminate. now rewrite Hf2. }
cbn [lift ret M_monad M_bind M_ret M_raise app].
destruct (has_column df0 "on_time") eqn:Hf3; simpl in Hfind; [discriminate|].
injection Hfind as <-.
rewrite derive_bool_missing; [reflexivity|].
rewrite !setitem_has_column, H1 by discriminate. now rewrite Hf3.
Qed.
End missing_columns.

(** ** What the callbacks report *)

Lemma append_empty (s : string) : String.append s "" = s.
Proof.
  induction s as [|a s IH]; [reflexivity|].
  change (String a (String.append s "") = String a s). now f_equal.
Qed.

Lemma metrics_length (df : DataFrame) (cs : list data_cards.card)
    (l : list log_record) :
  data_cards.metrics df = (Ok cs, l) -> length cs = 5%nat.
Proof.
  unfold data_cards.metrics. cbn [bind ret logger M_monad]. intros Hm.
  do 10 (apply M_bind_Ok in Hm as (? & ? & ? & _ & Hm & _)).
  now injection Hm as <- _.
Qed.

Section callbacks.
Context `{PyRuntime} `{Rendering}.

Lemma filtered_frame_Raise (fs : gmap string data.file)
  (kwargs : gmap string pyval) e :
fst (filtered_frame fs kwargs) = Raise e ->
(exists l0, data.get_data_default fs = (Raise e, l0)) \/
(exists df0 l0 l1, data.get_data_default fs = (Ok df0, l0) /\
                   filter_data df0 kwargs = (Raise e, l1)).
Proof.
unfold filtered_frame. cbn [bind M_monad].
destruct (data.get_data_default fs) as [[df0|e0] l0]; simpl.
- destruct (filter_data df0 kwargs) as [[df|e1] l1] eqn:Hf; simpl;
    [discriminate|]. intros [= ->]. right. eauto.
- intros [= ->]. left. eauto.
Qed.

(** X8. When loading or filtering raises, every guarded callback reports it
  instead of raising: the five cards read Error, the table is empty under
  the title that quotes the exception, each chart is the error figure
  with a message that starts with the exception's text.  [display_count]
  is not guarded and raises the exception itself. *)
Theorem failures_are_reported (fs : gmap string data.file)
  (kwargs : gmap string pyval) (e : exn) :
fst (filtered_frame fs kwargs) = Raise e ->
fst (data_cards.update fs kwargs) = Ok data_cards.error /\
fst (data_table.update fs kwargs)
= Ok ([], [], String.append "Error loading data: " (exn_text e)) /\
(forall update, In update chart_callbacks ->
   exists rest,
     fst (update fs kwargs)
     = Ok (chart.error_fig,
           String.append
             (String.append "Error updating chart: " (exn_text e)) rest)) /\
fst (display_count fs kwargs) = Raise e.
Proof.
intros Hraise.
assert (Hchart : forall name, exists rest,
          fst (chart.update name fs kwargs)
          = Ok (chart.error_fig,
                String.append
                  (String.append "Error updating chart: " (exn_text e))
                  rest)).
{ intros name. exists "". rewrite append_empty. unfold chart.update.
  cbn [bind ret try_except logger M_monad].
  destruct (filtered_frame_Raise fs kwargs e Hraise)
    as [[l0 ->]|(df0 & l0 & l1 & -> & Hf)]; [reflexivity|].
  cbn [M_bind]. rewrite Hf. reflexivity. }
repeat split.
- unfold data_cards.update. cbn [bind ret try_except logger M_monad].
  destruct (filtered_frame_Raise fs kwargs e Hraise)
    as [[l0 ->]|(df0 & l0 & l1 & -> & Hf)]; [reflexivity|].
  cbn [M_bind M_log]. rewrite Hf. reflexivity.
- unfold data_table.update. cbn [bind ret try_except logger M_monad].
  destruct (filtered_frame_Raise fs kwargs e Hraise)
    as [[l0 ->]|(df0 & l0 & l1 & -> & Hf)]; [reflexivity|].
  cbn [M_bind M_log]. rewrite Hf. reflexivity.
- intros update Hin. simpl in Hin.
  repeat destruct Hin as [<-|Hin]; try destruct Hin; apply Hchart.
- unfold display_count. cbn [bind ret M_monad].
  destruct (filtered_frame_Raise fs kwargs e Hraise)
    as [[l0 ->]|(df0 & l0 & l1 & -> & Hf)]; [reflexivity|].
  cbn [M_bind]. rewrite Hf. reflexivity.
Qed.

Lemma M_try_total {A} (body : M A) (handler : exn -> M A) :
(forall e, is_Ok (fst (handler e))) ->
is_Ok (fst (M_try body (fun _ => true) handler)).
Proof.
intros Hh. destruct body as [[a|e] l]; simpl; [now exists a|].
destruct (Hh e) as [a Ha]. destruct (handler e) as [r l']. simpl in *.
now exists a.
Qed.

Lemma cards_length (df : DataFrame) (cs : list data_cards.card)
  (l : list log_record) :
data_cards.cards df = (Ok cs, l) -> length cs = 5%nat.
Proof.
unfold data_cards.cards. destruct (len df =? 0)%nat.
- cbn [bind ret logger M_monad]. simpl. now intros [= <- _].
- apply metrics_length.
Qed.

(** X9. The cards, the table and the six chart callbacks never raise,
  whatever the files and the filters are, and the cards callback always
  returns five values, one for each of its outputs. *)
Theorem callbacks_never_raise (fs : gmap string data.file)
  (kwargs : gmap string pyval) :
(exists cs, fst (data_cards.update fs kwargs) = Ok cs /\
            length cs = 5%nat) /\
is_Ok (fst (data_table.update fs kwargs)) /\
(forall update, In update chart_callbacks ->
   is_Ok (fst (update fs kwargs))).
Proof.
split; [|split].
- unfold data_cards.update. cbn [bind ret try_except logger M_monad].
  match goal with |- context [M_try ?b _ _] => destruct b as [[cs|e] l] eqn:Hb end.
  + exists cs. split; [reflexivity|].
    apply M_bind_Ok in Hb as (? & ? & ? & _ & Hb & _).
    apply M_bind_Ok in Hb as (? & ? & ? & _ & Hb & _).
    apply M_bind_Ok in Hb as (? & ? & ? & _ & Hb & _).
    apply M_bind_Ok in Hb as (? & ? & ? & _ & Hb & _).
    eapply cards_length. eassumption.
  + exists data_cards.error. split; reflexivity.
- apply M_try_total. intros e. eexists. reflexivity.
- assert (Hchart : forall name, is_Ok (fst (chart.update name fs kwargs))).
  { intros name. apply M_try_total. intros e. eexists. reflexivity. }
  intros update Hin. simpl in Hin.
  repeat destruct Hin as [<-|Hin]; try destruct Hin; apply Hchart.
Qed.

(** X10. When [display_count] returns, the count it shows first is at most
  the second, which is the number of rows of the loaded frame. *)
Theorem display_count_bounded (fs : gmap string data.file)
  (kwargs : gmap string pyval) (shown total : nat) (l : list log_record) :
display_count fs kwargs = (Ok (shown, total), l) ->
(shown <= total)%nat /\
exists df0 l0, data.get_data_default fs = (Ok df0, l0) /\ total = len df0.
Proof.
unfold display_count. cbn [bind ret M_monad]. intros Hd.
apply M_bind_Ok in Hd as (df0 & l0 & ? & Hload & Hd & _).
apply M_bind_Ok in Hd as (df & l1 & ? & Hf & Hd & _).
injection Hd as <- <- _. split; [|eauto].
destruct (filter_data_keep df0 kwargs df) as [p ->]; [now rewrite Hf|].
unfold len. apply sublist_length, keep_sublist.
Qed.
End callbacks.

(** ** The on-time rate of the cards *)

Lemma present_flags (s : list cell) :
  Forall (fun c => flag_kind c = true) s ->
  exists l, present s = Ok l /\
    fold_right Z.add 0 l = Z.of_nat (length (List.filter is_one s)).
Proof.
  induction 1 as [|c s Hc Hs (l & Hl & Hsum)]; [exists []; split; reflexivity|].
  unfold present in Hl. apply result_bind_Ok in Hl as (os & Hos & [= <-]).
  unfold present. simpl result_mapM. rewrite Hos.
  destruct c as [|z| | |]; try discriminate; simpl.
  - eexists. split; [reflexivity|exact Hsum].
  - eexists. split; [reflexivity|]. simpl in Hc.
    apply orb_true_iff in Hc as [Hz|Hz]; apply Z.eqb_eq in Hz; subst z;
      simpl;
      change (foldr Z.add 0 (list_omap (option Z) Z id os))
        with (foldr Z.add 0 (omap id os));
      rewrite Hsum; lia.
Qed.

Lemma series_sum_flags (s : list cell) :
  Forall (fun c => flag_kind c = true) s ->
  series_sum s = Ok (Z.of_nat (length (List.filter is_one s))).
Proof.
  intros Hs. destruct (present_flags s Hs) as (l & Hl & Hsum).
  unfold series_sum. rewrite Hl. simpl. now rewrite Hsum.
Qed.

(** X11. On a frame that has rows and whose on-time column holds 0, 1 or
    missing cells, the on-time rate of the cards is a hundred times the
    number of rows whose flag is 1 over the number of all rows, the rows
    with a missing flag included, and so lies between 0 and 100. *)
Theorem on_time_rate_flags (df : DataFrame) :
  (0 < len df)%nat -> has_column df "on_time" = true ->
  column_holds flag_kind "on_time" df ->
  exists q,
    data_cards.on_time_rate df = Ok (FNum q) /\
    (q == inject_Z (Z.of_nat (count_ones df "on_time"))
          / inject_Z (Z.of_nat (len df)) * 100)%Q /\
    (0 <= q)%Q /\ (q <= 100)%Q.
Proof.
  intros Hlen Hcol Hflags. apply has_column_index in Hcol as [i Hidx].
  unfold data_cards.on_time_rate, getitem. rewrite Hidx. simpl result_bind.
  rewrite series_sum_flags.
  2:{ apply List.Forall_forall. intros c Hc. apply in_map_iff in Hc as (r & <- & Hr).
      apply (Hflags r _ Hr). unfold value_of. now rewrite Hidx. }
  simpl result_bind. unfold percent_of.
  assert (Hones : length (List.filter is_one (map (cell_at i) (rows df)))
                  = count_ones df "on_time").
  { unfold count_ones. clear Hflags Hlen.
    induction (rows df) as [|r l IH]; simpl; [reflexivity|].
    rewrite (cell_of_index df _ i r Hidx).
    destruct (is_one (cell_at i r)); simpl; now rewrite IH. }
  rewrite Hones.
  assert (Hle : (count_ones df "on_time" <= len df)%nat).
  { unfold count_ones, len. apply filter_length_le. }
  destruct (len df) as [|n] eqn:Hn; [lia|].
  eexists. split; [reflexivity|].
  set (k := Z.of_nat (count_ones df "on_time")).
  set (m := Z.of_nat (S n)).
  assert (Hk : (0 <= k)%Z) by (unfold k; lia).
  assert (Hm : (0 < m)%Z) by (unfold m; lia).
  assert (Hkm : (k <= m)%Z) by (unfold k, m; lia).
  assert (Hq : (Qred (inject_Z k / inject_Z m * inject_Z 100)
                == inject_Z k / inject_Z m * 100)%Q).
  { rewrite Qred_correct. reflexivity. }
  split; [exact Hq|]. rewrite Hq.
  assert (Hm' : (0 < inject_Z m)%Q) by (change (inject_Z 0 < inject_Z m)%Q; now rewrite <- Zlt_Qlt).
  assert (Hfrac0 : (0 <= inject_Z k / inject_Z m)%Q).
  { apply Qle_shift_div_l; [exact Hm'|]. rewrite Qmult_0_l.
    change (inject_Z 0 <= inject_Z k)%Q. now rewrite <- Zle_Qle. }
  assert (Hfrac1 : (inject_Z k / inject_Z m <= 1)%Q).
  { apply Qle_shift_div_r; [exact Hm'|]. rewrite Qmult_1_l.
    now rewrite <- Zle_Qle. }
  split.
  - apply Qmult_le_0_compat; [exact Hfrac0|discriminate].
  - apply (Qle_trans _ (1 * 100)%Q); [|apply Qle_refl].
    apply Qmult_le_compat_r; [exact Hfrac1|discriminate].
Qed.

(** ** Columns the frame lacks *)

Section columns.
Context `{PyRuntime}.

Lemma dimensions_keep (filters : gmap string pyval) (t d : DataFrame)
  (l : list log_record) :
dimensions filters t = (Ok d, l) -> exists p, d = keep p t.
Proof.
assert (S : selects_rows (dimensions filters)).
{ unfold dimensions. cbn [bind M_monad].
  repeat (apply selects_rows_bind; [apply multi_select_selects|]).
  apply multi_select_selects. }
apply S.
Qed.

(** X12. On a frame without a distance column the two distance bounds are
  not read: two keyword bags that agree on the seven dimensions and the
  two date bounds give the same frame or the same exception, whatever
  their distance bounds are, or whether they have any. *)
Theorem distance_bounds_unread (t : DataFrame) (F G : gmap string pyval) :
has_column t "distance" = false ->
(forall key, In key multi_select_keys -> F !! key = G !! key) ->
F !! "date_start" = G !! "date_start" ->
F !! "date_end" = G !! "date_end" ->
fst (filter_data t F) = fst (filter_data t G).
Proof.
intros Hno Hdims Hstart Hend. f_equal. rewrite !filter_data_eq.
do 2 (apply M_bind_ext; intros _).
assert (Hd : dimensions F t = dimensions G t).
{ unfold dimensions. cbn [bind M_monad].
  assert (Hms : forall key col (df : DataFrame),
            In (key, col) multi_select_dims ->
            filter_component.multi_select (m:=M) key col F df
            = filter_component.multi_select key col G df).
  { intros key col df Hin. rewrite !multi_select_value.
    unfold multi_select_decision. rewrite (Hdims key); [reflexivity|].
    now apply (in_map fst) in Hin. }
  do 6 (rewrite Hms by (simpl; tauto); apply M_bind_ext; intros ?).
  apply Hms. simpl; tauto. }
assert (Hsel : selection F t = selection G t).
{ unfold selection. cbn [bind M_monad]. rewrite Hd.
  destruct (dimensions G t) as [[d|e] l] eqn:Hdim; [|reflexivity].
  destruct (dimensions_keep G t d l Hdim) as [p ->].
  unfold distance_range. cbn [bind ret M_monad M_bind].
  rewrite (has_column_columns t (keep p t) "distance" eq_refl), Hno.
  reflexivity. }
rewrite Hsel. apply M_bind_ext; intros df.
assert (Hdate : date_range F df = date_range G df).
{ unfold date_range. cbn [bind M_monad].
  rewrite (date_bound_ext F G true "date_start") by exact Hstart.
  apply M_bind_ext; intros ?. now apply date_bound_ext. }
now rewrite Hdate.
Qed.

Lemma multi_select_list_outcome key col (filters : gmap string pyval)
  (df : DataFrame) (l : list pyval) :
filters !! key = Some (PList l) ->
(exists p, filter_component.multi_select (m:=M) key col filters df
           = (Ok (keep p df), [])) \/
(filter_component.multi_select (m:=M) key col filters df
 = (Raise (KeyError col), []) /\ has_column df col = false).
Proof.
intros Hkey. rewrite multi_select_value. unfold multi_select_decision.
rewrite Hkey. simpl.
assert (Hsame : exists p, (Ok df, @nil log_record) = (Ok (keep p df), [])).
{ exists (fun _ => true). now rewrite keep_true. }
destruct (0 <? length l)%nat; [|left; exact Hsame].
destruct (existsb (is_str "all") l); [left; exact Hsame|].
unfold has_column.
destruct (column_index col (columns df)) as [i|]; [left|right; now split].
simpl. rewrite rowwise_total.
- eexists. reflexivity.
- apply List.Forall_forall. intros row _. eexists. reflexivity.
Qed.

Lemma multi_select_missing key col (filters : gmap string pyval)
  (df : DataFrame) (l : list pyval) :
filters !! key = Some (PList l) -> restricting l ->
has_column df col = false ->
filter_component.multi_select (m:=M) key col filters df
= (Raise (KeyError col), []).
Proof.
intros Hkey [Hne Hall] Hno. rewrite multi_select_value.
unfold multi_select_decision. rewrite Hkey. simpl.
destruct l as [|v l]; [now destruct Hne|].
simpl Nat.ltb. cbv iota. rewrite Hall. unfold has_column in Hno.
destruct (column_index col (columns df)); [discriminate|reflexivity].
Qed.

(** X13. A missing dimension column is not skipped as a missing distance
  column is: when every dimension holds a list and some restricting list
  is for a column the frame lacks, [filter_data] raises [KeyError] for a
  dimension column the frame lacks. *)
Theorem missing_dimension_column (t : DataFrame)
  (filters : gmap string pyval) key col (l : list pyval) :
(forall k c, In (k, c) multi_select_dims ->
   exists l', filters !! k = Some (PList l')) ->
In (key, col) multi_select_dims ->
filters !! key = Some (PList l) -> restricting l ->
has_column t col = false ->
exists k c, In (k, c) multi_select_dims /\ has_column t c = false /\
  fst (filter_data t filters) = Raise (KeyError c).
Proof.
intros Hlists Hin Hkey Hres Hno.
rewrite filter_data_eq. unfold selection, dimensions.
cbn [bind M_monad M_bind M_log fst app].
repeat match goal with
| |- context [filter_component.multi_select ?k ?c filters ?df] =>
    let Hl := fresh "Hl" in
    let Hs := fresh "Hs" in
    let Hc := fresh "Hc" in
    destruct (Hlists k c ltac:(simpl; tauto)) as [? Hl];
    destruct (multi_select_list_outcome k c filters df _ Hl)
      as [[? Hs]|[Hs Hc]];
    [ rewrite Hs; cbn [M_bind app]; rewrite ?keep_keep
    | exists k, c; split; [simpl; tauto|]; split; [exact Hc|];
      rewrite Hs; reflexivity ]
end.
exfalso. simpl in Hin.
repeat destruct Hin as [[= <- <-]|Hin]; try destruct Hin;
  match goal with
  | Hs : filter_component.multi_select ?k ?c filters ?df = (Ok _, _) |- _ =>
      rewrite (multi_select_missing k c filters df l Hkey Hres Hno) in Hs;
      discriminate
  end.
Qed.
End columns.

(** ** Rows without a date *)

Section missing_dates.
Context `{PyRuntime}.


End missing_dates.

(** ** The columns of the table *)

Lemma is_in_In (col : string) (l : list string) :
  data_table_body.is_in col l = true <-> In col l.
Proof.
  unfold data_table_body.is_in. rewrite existsb_exists. split.
  - intros (x & Hx & Heq). apply String.eqb_eq in Heq. now subst.
  - intros Hin. exists col. split; [exact Hin|apply String.eqb_refl].
Qed.

(** X15. The table shows a column of the frame exactly when it is a
    priority column, or its name neither starts with an underscore nor is
    index; the priority columns come first, in their fixed order, then the
    others in the order of the frame; no column is shown twice when the
    frame has none twice. *)
Theorem table_column_fields (df : DataFrame) :
  (forall col,
     In col (data_table_body.column_def_fields df) <->
     In col (columns df) /\
     (In col data_table_body.priority_columns \/
      (data_table_body.starts_with_underscore col = false /\ col <> "index"))) /\
  (List.NoDup (columns df) -> List.NoDup (data_table_body.column_def_fields df)) /\
  (exists first rest,
     data_table_body.column_def_fields df = first ++ rest /\
     first `sublist_of` data_table_body.priority_columns /\
     rest `sublist_of` columns df /\
     forall col, In col rest -> ~ In col data_table_body.priority_columns).
Proof.
  unfold data_table_body.column_def_fields. split; [|split].
  - intros col. rewrite in_app_iff, !filter_In, is_in_In. unfold data_table_body.remaining.
    rewrite !andb_true_iff, !negb_true_iff.
    destruct (data_table_body.is_in col data_table_body.priority_columns) eqn:Hp.
    + apply is_in_In in Hp. split; [intros [[_ ?]|(? & (? & ?) & _)]|];
        try discriminate; tauto.
    + assert (Hnp : ~ In col data_table_body.priority_columns).
      { intros Hin. apply is_in_In in Hin. congruence. }
      rewrite String.eqb_neq. tauto.
  - intros Hnd. apply List.NoDup_app.
    + apply List.NoDup_filter. unfold data_table_body.priority_columns.
      repeat (constructor; [simpl; intuition discriminate|]). constructor.
    + now apply List.NoDup_filter.
    + intros x Hx Hy. apply filter_In in Hx as [Hx _].
      apply filter_In in Hy as [_ Hy]. unfold data_table_body.remaining in Hy.
      apply is_in_In in Hx. rewrite Hx in Hy. discriminate.
  - assert (Hsub : forall (f : string -> bool) l, List.filter f l `sublist_of` l).
    { intros f l. induction l as [|x l IH]; simpl; [constructor|].
      destruct (f x); now constructor. }
    eexists _, _. split; [reflexivity|]. split; [apply Hsub|].
    split; [apply Hsub|].
    intros col Hin Hp. apply filter_In in Hin as [_ Hr].
    unfold data_table_body.remaining in Hr. apply is_in_In in Hp. rewrite Hp in Hr.
    discriminate.
Qed.

(** ** Routing *)

Lemma route_found (pathname : string) :
  app.route pathname = app.app_layout \/
  (app.route pathname = app.component_layout (app.strip pathname) /\
   app.registered (app.strip pathname) = true).
Proof.
  unfold app.route, app.get_component_layout.
  destruct (_ || _); [now left|].
  destruct (app.registered (app.strip pathname)); [right|left]; auto.
Qed.

Lemma route_registered (component_id : string) :
  In component_id app.component_registry ->
  app.route (String.append "/" component_id)
  = app.component_layout component_id.
Proof.
  intros Hin. simpl in Hin.
  repeat destruct Hin as [<-|Hin]; try destruct Hin; reflexivity.
Qed.

(** X16. [display_page] never shows the Component Not Found message.  A
    [--component] argument overrides the path: a registered identifier
    gives the layout of that component, an argument that is no identifier
    fails the assertion.  Without the argument a path that names no
    registered component gives the layout of the whole application. *)
Theorem display_page_routes (isidentifier : string -> bool)
    (argv : list string) (pathname : string) :
  app.display_page isidentifier argv pathname
  <> app.Page app.component_not_found /\
  (forall component_id,
     app.component_arg argv = Some component_id ->
     (isidentifier component_id = false ->
      app.display_page isidentifier argv pathname = app.AssertionError) /\
     (isidentifier component_id = true ->
      In component_id app.component_registry ->
      app.display_page isidentifier argv pathname
      = app.Page (app.component_layout component_id))) /\
  (app.component_arg argv = None ->
   app.registered (app.strip pathname) = false ->
   app.display_page isidentifier argv pathname = app.Page app.app_layout).
Proof.
  unfold app.display_page. split; [|split].
  - destruct (app.component_arg argv) as [c|].
    + destruct (isidentifier c); [|discriminate].
      destruct (route_found (String.append "/" c)) as [->|[-> _]]; discriminate.
    + destruct (route_found pathname) as [->|[-> _]]; discriminate.
  - intros c ->. split.
    + now intros ->.
    + intros -> Hin. now rewrite route_registered.
  - intros -> Hno. destruct (route_found pathname) as [->|[_ Hreg]];
      [reflexivity|congruence].
Qed.

(** ** Examples of the further properties *)

Module more_examples.
Import example_runtime example_calls.



Lemma filter_data_keeps_order_witness :
columns first_flight_only = columns two_flights /\
rows first_flight_only `sublist_of` rows two_flights /\
(len first_flight_only <= len two_flights)%nat.
Proof.
apply (filter_data_keeps_order two_flights year_2022 first_flight_only).
vm_compute. reflexivity.
Defined.



Lemma filter_data_reads_its_keys_witness :
fst (filter_data two_flights year_2022)
= fst (filter_data two_flights (<["n_clicks" := PInt 3]> year_2022)).
Proof.
apply (filter_data_reads_its_keys two_flights year_2022
         (<["n_clicks" := PInt 3]> year_2022)).
intros key Hin. simpl in Hin.
repeat destruct Hin as [<-|Hin]; try destruct Hin; vm_compute; reflexivity.
Defined.


Lemma loaded_text_columns_witness :
exists df,
  (forall col d, data.lookup_dtype col data.type_mapping = Some d ->
     col <> "date" -> column_holds (dtype_kind d) col df) /\
  numeric_distance df.
Proof.
eexists.
eapply (loaded_text_columns {["data/data.csv" := flights_file]}
          "data/data.csv" _ _).
- reflexivity.
- vm_compute. reflexivity.
Defined.

Lemma loader_missing_column_witness :
data.get_data {["data/data.csv" := no_date_file]} "data/data.csv"
= (Raise (KeyError "date"),
   [mkLog DEBUG "Data loaded. Shape: %s"; mkLog DEBUG "Sample data:\n%s"]).
Proof.
apply (loader_missing_column {["data/data.csv" := no_date_file]}
         "data/data.csv" no_date_frame "date").
- vm_compute. reflexivity.
- reflexivity.
- intros date Hdate. discriminate.
Defined.

Lemma failures_are_reported_witness :
fst (data_cards.update ∅ year_2022) = Ok data_cards.error /\
fst (data_table.update ∅ year_2022)
= Ok ([], [], String.append "Error loading data: "
                (exn_text FileNotFoundError)) /\
(forall update, In update chart_callbacks ->
   exists rest,
     fst (update ∅ year_2022)
     = Ok (chart.error_fig,
           String.append
             (String.append "Error updating chart: "
                (exn_text FileNotFoundError)) rest)) /\
fst (display_count ∅ year_2022) = Raise FileNotFoundError.
Proof.
apply (failures_are_reported ∅ year_2022 FileNotFoundError).
reflexivity.
Defined.

Lemma callbacks_never_raise_witness :
is_Ok (fst (Scatterchart_Showing.update ∅ year_2022)).
Proof.
apply (proj2 (proj2 (callbacks_never_raise ∅ year_2022))).
simpl. auto.
Defined.

Lemma display_count_bounded_witness :
(1 <= 2)%nat /\
exists df0 l0,
  data.get_data_default {["data/data.csv" := flights_file]} = (Ok df0, l0) /\
  2%nat = len df0.
Proof.
eapply (display_count_bounded {["data/data.csv" := flights_file]}
          year_2022 1 2 _).
vm_compute. reflexivity.
Defined.

Lemma on_time_rate_flags_witness :
exists q,
  data_cards.on_time_rate two_flights = Ok (FNum q) /\
  (q == inject_Z (Z.of_nat (count_ones two_flights "on_time"))
        / inject_Z (Z.of_nat (len two_flights)) * 100)%Q /\
  (0 <= q)%Q /\ (q <= 100)%Q.
Proof.
apply (on_time_rate_flags two_flights).
- unfold len. simpl. lia.
- reflexivity.
- intros row c Hrow Hc. simpl in Hrow.
  repeat destruct Hrow as [<-|Hrow]; try destruct Hrow;
    injection Hc as <-; reflexivity.
Defined.

Lemma distance_bounds_unread_witness :
fst (filter_data no_distance year_2022)
= fst (filter_data no_distance
         (<["flight_distance_min" := PStr "far"]>
            (delete "flight_distance_max" year_2022))).
Proof.
apply (distance_bounds_unread no_distance year_2022).
- reflexivity.
- intros key Hin. simpl in Hin.
  repeat destruct Hin as [<-|Hin]; try destruct Hin; vm_compute; reflexivity.
- vm_compute. reflexivity.
- vm_compute. reflexivity.
Defined.

Lemma missing_dimension_column_witness :
exists k c, In (k, c) multi_select_dims /\
  has_column two_flights c = false /\
  fst (filter_data two_flights
         (<["destination_airport" := PList [PStr "JFK"]]> year_2022))
  = Raise (KeyError c).
Proof.
apply (missing_dimension_column two_flights
         (<["destination_airport" := PList [PStr "JFK"]]> year_2022)
         "destination_airport" "dest" [PStr "JFK"]).
- intros k c Hin. simpl in Hin.
  repeat destruct Hin as [[= <- <-]|Hin]; try destruct Hin;
    eexists; vm_compute; reflexivity.
- simpl. auto 10.
- reflexivity.
- split; [discriminate|reflexivity].
- reflexivity.
Defined.


Lemma table_column_fields_witness :
List.NoDup (data_table_body.column_def_fields two_flights).
Proof.
apply (proj1 (proj2 (table_column_fields two_flights))).
simpl. repeat (constructor; [simpl; intuition discriminate|]). constructor.
Defined.

Lemma display_page_routes_witness :
app.display_page (fun _ => true) ["app.py"; "--component"; "data_table"]
  "/"
= app.Page (app.component_layout "data_table").
Proof.
apply (proj1 (proj2 (display_page_routes (fun _ => true)
                       ["app.py"; "--component"; "data_table"] "/"))
         "data_table").
- reflexivity.
- reflexivity.
- simpl. auto.
Defined.
End more_examples.
